(** * terraform-provider-clickhousedbops: the table resource

    A shallow embedding of the table reconciliation code:
    - [internal/querybuilder]: the DROP TABLE, CREATE TABLE and ALTER TABLE
      ADD/DROP COLUMN builders;
    - [internal/dbops/table.go]: CreateTable, GetTable, DeleteTable,
      FindTableByName, AddTableColumns, DropTableColumns and the two
      parsers of the catalog texts;
    - [pkg/resource/table/table.go]: Read, Update, Delete, ModifyPlan,
      syncTableState and the engine normalization;
    followed by the properties of the specification that were checked
    against it and by further properties of the code. The executor and the
    SELECT builder, whose sources are elsewhere, are interfaces here. *)

From Stdlib Require Import Ascii String.
From stdpp Require Import base option list gmap strings.

(** ** Go's [strings] package, as far as the code uses it

    A Go string is a sequence of bytes; [string] is a list of 8-bit
    characters, so offsets below are byte offsets as in Go. *)
Module Strings.

(** [s[n:]] *)
Fixpoint from (n : nat) (s : string) : string :=
  match n, s with
  | 0, _ => s
  | S n', String _ s' => from n' s'
  | S _, EmptyString => EmptyString
  end.

(** [s[:n]] *)
Fixpoint upto (n : nat) (s : string) : string :=
  match n, s with
  | 0, _ => EmptyString
  | S n', String c s' => String c (upto n' s')
  | S _, EmptyString => EmptyString
  end.

(** [strings.Index(s, substr)]: byte offset of the first occurrence of
    [substr] in [s]; Go's -1 is [None]. *)
Fixpoint Index (s substr : string) : option nat :=
  if String.prefix substr s then Some 0
  else match s with
       | EmptyString => None
       | String _ s' => S <$> Index s' substr
       end.

(** [substr] occurs in [s] at byte offset [i]. *)
Definition occursAt (s substr : string) (i : nat) : Prop :=
  ∃ p q, s = p +:+ substr +:+ q ∧ String.length p = i.

Definition Contains (s substr : string) : bool :=
  match Index s substr with Some _ => true | None => false end.

(** [strings.Split(s, sep)] for a non-empty separator (the code only
    splits on [","], ["="] and [":"]): the pieces between consecutive
    occurrences of [sep]; a string without [sep] is returned whole. The
    recursion is on a bound: each round drops at least one byte. *)
Fixpoint SplitN (bound : nat) (s sep : string) : list string :=
  match bound with
  | 0 => [s]
  | S bound' =>
      match Index s sep with
      | None => [s]
      | Some i => upto i s :: SplitN bound' (from (i + String.length sep) s) sep
      end
  end.

Definition Split (s sep : string) : list string :=
  SplitN (String.length s) s sep.

(** [strings.Join(elems, sep)] *)
Fixpoint Join (elems : list string) (sep : string) : string :=
  match elems with
  | [] => ""
  | [e] => e
  | e :: rest => e +:+ sep +:+ Join rest sep
  end.

(** Go's [unicode.IsSpace] on the runes outside ASCII, by their UTF-8
    bytes: U+0085 and U+00A0 take two bytes; U+1680, U+2000..U+200A,
    U+2028, U+2029, U+202F, U+205F and U+3000 take three. *)
Definition isSpace2 (b0 b1 : N) : bool :=
  (b0 =? 194)%N && ((b1 =? 133)%N || (b1 =? 160)%N).

Definition isSpace3 (b0 b1 b2 : N) : bool :=
  ((b0 =? 225)%N && (b1 =? 154)%N && (b2 =? 128)%N)
  || ((b0 =? 226)%N && (b1 =? 128)%N
      && (((128 <=? b2)%N && (b2 <=? 138)%N)
          || (b2 =? 168)%N || (b2 =? 169)%N || (b2 =? 175)%N))
  || ((b0 =? 226)%N && (b1 =? 129)%N && (b2 =? 159)%N)
  || ((b0 =? 227)%N && (b1 =? 128)%N && (b2 =? 128)%N).

(** Width in bytes of a white-space rune at the head of [s], 0 when
    there is none (ASCII white space is U+0009..U+000D and U+0020). *)
Definition spaceWidth (s : string) : nat :=
  match s with
  | String c0 rest =>
      if Ascii.is_space c0 then 1 else
      match rest with
      | String c1 rest' =>
          if isSpace2 (N_of_ascii c0) (N_of_ascii c1) then 2 else
          match rest' with
          | String c2 _ =>
              if isSpace3 (N_of_ascii c0) (N_of_ascii c1) (N_of_ascii c2)
              then 3 else 0
          | EmptyString => 0
          end
      | EmptyString => 0
      end
  | EmptyString => 0
  end.

(** The same for the rune that ends a string, given the reversed string
    [r]: its bytes come last byte first. *)
Definition spaceWidthLast (r : string) : nat :=
  match r with
  | String c0 rest =>
      if Ascii.is_space c0 then 1 else
      match rest with
      | String c1 rest' =>
          if isSpace2 (N_of_ascii c1) (N_of_ascii c0) then 2 else
          match rest' with
          | String c2 _ =>
              if isSpace3 (N_of_ascii c2) (N_of_ascii c1) (N_of_ascii c0)
              then 3 else 0
          | EmptyString => 0
          end
      | EmptyString => 0
      end
  | EmptyString => 0
  end.

Fixpoint trimWith (width : string → nat) (bound : nat) (s : string) : string :=
  match bound with
  | 0 => s
  | S bound' =>
      match width s with
      | 0 => s
      | w => trimWith width bound' (from w s)
      end
  end.

(** [strings.TrimSpace(s)]: [s] without leading and trailing white space. *)
Definition TrimSpace (s : string) : string :=
  let l := trimWith spaceWidth (String.length s) s in
  String.rev (trimWith spaceWidthLast (String.length l) (String.rev l)).

End Strings.

(** ** Errors ([github.com/pingcap/errors]) *)

Inductive error : Type :=
| New (msg : string)
| WithMessage (err : error) (msg : string).

(** A Go result pair [(v, err)]: exactly one side is meaningful. *)
Inductive result (A : Type) : Type :=
| Ok (v : A)
| Err (e : error).
Arguments Ok {A} v.
Arguments Err {A} e.

Definition is_err {A} (r : result A) : bool :=
  match r with Ok _ => false | Err _ => true end.

(** ** internal/querybuilder *)
Module querybuilder.

(** Modelled from the spec: [backtick], the identifier quoting helper of
    package querybuilder, is not among the sources. Spec 4.1: identifiers
    are wrapped in backticks and embedded backticks are not escaped
    further (droptable_test.go: [`my-db`.`my.table`]). *)
Definition backtick (s : string) : string := "`" +:+ s +:+ "`".

(** Modelled from the spec: [quote], the string literal helper of package
    querybuilder, is not among the sources. Spec 4.1: string literal
    values are wrapped in single quotes (the tests: ['my_cluster']). *)
Definition quote (s : string) : string := "'" +:+ s +:+ "'".

(** *** droptable.go *)
Record dropTableQueryBuilder : Type := {
  drop_databaseName : string;
  drop_tableName : string;
  drop_clusterName : option string;
}.

Definition NewDropTable (databaseName tableName : string) : dropTableQueryBuilder :=
  {| drop_databaseName := databaseName;
     drop_tableName := tableName;
     drop_clusterName := None |}.

Definition DropWithCluster (q : dropTableQueryBuilder) (clusterName : option string)
  : dropTableQueryBuilder :=
  {| drop_databaseName := drop_databaseName q;
     drop_tableName := drop_tableName q;
     drop_clusterName := clusterName |}.

Definition DropBuild (q : dropTableQueryBuilder) : result string :=
  if decide (drop_databaseName q = "") then
    Err (New "databaseName cannot be empty for DROP TABLE queries")
  else if decide (drop_tableName q = "") then
    Err (New "tableName cannot be empty for DROP TABLE queries")
  else
    let tokens :=
      ["DROP"; "TABLE";
       backtick (drop_databaseName q) +:+ "." +:+ backtick (drop_tableName q)] in
    let tokens :=
      match drop_clusterName q with
      | Some c => tokens ++ ["ON"; "CLUSTER"; quote c]
      | None => tokens
      end in
    Ok (Strings.Join tokens " " +:+ ";").

(** *** createtable.go *)
Record TableColumn : Type := {
  Name : string;
  Type_ : string;
  Default : option string;
  Comment : option string;
}.

Record createTableQueryBuilder : Type := {
  databaseName : string;
  tableName : string;
  columns : list TableColumn;
  clusterName : option string;
  engine : string;
  orderBy : list string;
  partitionBy : option string;
  primaryKey : list string;
  sampleBy : option string;
  ttl : option string;
  settings : gmap string string;
  comment : option string;
}.

Definition NewCreateTable (databaseName tableName : string) (columns : list TableColumn)
  : createTableQueryBuilder :=
  {| databaseName := databaseName; tableName := tableName; columns := columns;
     clusterName := None; engine := ""; orderBy := []; partitionBy := None;
     primaryKey := []; sampleBy := None; ttl := None; settings := ∅;
     comment := None |}.

Definition WithCluster (q : createTableQueryBuilder) (c : option string) :=
  let '(Build_createTableQueryBuilder d t cs _ e o p k s l m n) := q in
  Build_createTableQueryBuilder d t cs c e o p k s l m n.

Definition WithEngine (q : createTableQueryBuilder) (engine : string) :=
  let '(Build_createTableQueryBuilder d t cs c _ o p k s l m n) := q in
  Build_createTableQueryBuilder d t cs c engine o p k s l m n.

Definition WithOrderBy (q : createTableQueryBuilder) (orderBy : list string) :=
  let '(Build_createTableQueryBuilder d t cs c e _ p k s l m n) := q in
  Build_createTableQueryBuilder d t cs c e orderBy p k s l m n.

Definition WithPartitionBy (q : createTableQueryBuilder) (partitionBy : string) :=
  let '(Build_createTableQueryBuilder d t cs c e o _ k s l m n) := q in
  Build_createTableQueryBuilder d t cs c e o (Some partitionBy) k s l m n.

Definition WithPrimaryKey (q : createTableQueryBuilder) (primaryKey : list string) :=
  let '(Build_createTableQueryBuilder d t cs c e o p _ s l m n) := q in
  Build_createTableQueryBuilder d t cs c e o p primaryKey s l m n.

Definition WithSampleBy (q : createTableQueryBuilder) (sampleBy : string) :=
  let '(Build_createTableQueryBuilder d t cs c e o p k _ l m n) := q in
  Build_createTableQueryBuilder d t cs c e o p k (Some sampleBy) l m n.

Definition WithTTL (q : createTableQueryBuilder) (ttl : string) :=
  let '(Build_createTableQueryBuilder d t cs c e o p k s _ m n) := q in
  Build_createTableQueryBuilder d t cs c e o p k s (Some ttl) m n.

Definition WithSettings (q : createTableQueryBuilder) (settings : gmap string string) :=
  let '(Build_createTableQueryBuilder d t cs c e o p k s l _ n) := q in
  Build_createTableQueryBuilder d t cs c e o p k s l settings n.

Definition WithComment (q : createTableQueryBuilder) (comment : string) :=
  let '(Build_createTableQueryBuilder d t cs c e o p k s l m _) := q in
  Build_createTableQueryBuilder d t cs c e o p k s l m (Some comment).

(** What a [for i, x := range l] loop writes to the string builder when
    its body is [if i > 0 { sb.WriteString(sep) }] followed by the text
    of [x]; [i] is the index of the head of [l]. *)
Fixpoint writeEach {A : Type} (sep : string) (text : A → string)
    (i : nat) (l : list A) : string :=
  match l with
  | [] => ""
  | x :: l' =>
      (if decide (0 < i) then sep else "") +:+ text x
      +:+ writeEach sep text (S i) l'
  end.

Definition columnText (col : TableColumn) : string :=
  backtick (Name col) +:+ " " +:+ Type_ col
  +:+ match Default col with Some d => " DEFAULT " +:+ d | None => "" end
  +:+ match Comment col with Some c => " COMMENT " +:+ quote c | None => "" end.

(** [fmt.Sprintf("%s = %s", key, value)] *)
Definition settingText (kv : string * string) : string :=
  kv.1 +:+ " = " +:+ kv.2.

(** Go does not fix the order in which [range] visits a map, and two
    loops over the same map may see different orders: every enumeration
    of the entries is possible. *)
Definition rangeOrder (m : gmap string string) (visited : list (string * string)) : Prop :=
  visited ≡ₚ map_to_list m.

(** [createTableQueryBuilder.Build]; [visited] is the order in which the
    [range q.settings] loop of this call sees the entries. *)
Definition Build (q : createTableQueryBuilder) (visited : list (string * string))
  : result string :=
  if decide (databaseName q = "") then
    Err (New "databaseName cannot be empty for CREATE TABLE queries")
  else if decide (tableName q = "") then
    Err (New "tableName cannot be empty for CREATE TABLE queries")
  else if decide (length (columns q) = 0) then
    Err (New "columns cannot be empty for CREATE TABLE queries")
  else if decide (engine q = "") then
    Err (New "engine cannot be empty for CREATE TABLE queries")
  else
    Ok ("CREATE TABLE " +:+ backtick (databaseName q) +:+ "." +:+ backtick (tableName q)
        +:+ match clusterName q with
            | Some c => " ON CLUSTER " +:+ quote c
            | None => ""
            end
        +:+ " (" +:+ writeEach ", " columnText 0 (columns q) +:+ ")"
        +:+ " ENGINE = " +:+ engine q
        +:+ (if decide (0 < length (orderBy q))
             then " ORDER BY (" +:+ writeEach ", " backtick 0 (orderBy q) +:+ ")"
             else "")
        +:+ match partitionBy q with
            | Some p => " PARTITION BY " +:+ p
            | None => ""
            end
        +:+ (if decide (0 < length (primaryKey q))
             then " PRIMARY KEY (" +:+ writeEach ", " backtick 0 (primaryKey q) +:+ ")"
             else "")
        +:+ match sampleBy q with
            | Some e => " SAMPLE BY " +:+ e
            | None => ""
            end
        +:+ match ttl q with
            | Some e => " TTL " +:+ e
            | None => ""
            end
        +:+ (if decide (0 < size (settings q))
             then " SETTINGS " +:+ writeEach ", " settingText 0 visited
             else "")
        +:+ match comment q with
            | Some c => " COMMENT " +:+ quote c
            | None => ""
            end
        +:+ ";").

(** *** altertable.go *)
Record AlterTableAddColumnQueryBuilder : Type := {
  add_databaseName : string;
  add_tableName : string;
  add_columns : list TableColumn;
  add_clusterName : option string;
}.

Definition NewAlterTableAddColumn (databaseName tableName : string)
    (columns : list TableColumn) : AlterTableAddColumnQueryBuilder :=
  {| add_databaseName := databaseName; add_tableName := tableName;
     add_columns := columns; add_clusterName := None |}.

Definition AddWithCluster (b : AlterTableAddColumnQueryBuilder)
    (clusterName : option string) : AlterTableAddColumnQueryBuilder :=
  {| add_databaseName := add_databaseName b; add_tableName := add_tableName b;
     add_columns := add_columns b; add_clusterName := clusterName |}.

(** The [ON CLUSTER] clause of the ALTER builders: only for a cluster
    name that is neither nil nor empty. *)
Definition alterCluster (clusterName : option string) : string :=
  match clusterName with
  | Some c => if decide (c = "") then "" else " ON CLUSTER " +:+ quote c
  | None => ""
  end.

Definition addColumnText (col : TableColumn) : string :=
  " ADD COLUMN " +:+ "`" +:+ Name col +:+ "` " +:+ Type_ col
  +:+ match Default col with
      | Some d => if decide (d = "") then "" else " DEFAULT " +:+ d
      | None => ""
      end
  +:+ match Comment col with
      | Some c => if decide (c = "") then "" else " COMMENT " +:+ quote c
      | None => ""
      end.

Definition AddBuild (b : AlterTableAddColumnQueryBuilder) : result string :=
  if decide (add_databaseName b = "") then Err (New "database name is required")
  else if decide (add_tableName b = "") then Err (New "table name is required")
  else if decide (length (add_columns b) = 0) then
    Err (New "at least one column is required")
  else
    Ok ("ALTER TABLE " +:+ "`" +:+ add_databaseName b +:+ "`.`" +:+ add_tableName b +:+ "`"
        +:+ alterCluster (add_clusterName b)
        +:+ writeEach "," addColumnText 0 (add_columns b)).

Record AlterTableDropColumnQueryBuilder : Type := {
  dropcol_databaseName : string;
  dropcol_tableName : string;
  dropcol_columnNames : list string;
  dropcol_clusterName : option string;
}.

Definition NewAlterTableDropColumn (databaseName tableName : string)
    (columnNames : list string) : AlterTableDropColumnQueryBuilder :=
  {| dropcol_databaseName := databaseName; dropcol_tableName := tableName;
     dropcol_columnNames := columnNames; dropcol_clusterName := None |}.

Definition DropColWithCluster (b : AlterTableDropColumnQueryBuilder)
    (clusterName : option string) : AlterTableDropColumnQueryBuilder :=
  {| dropcol_databaseName := dropcol_databaseName b;
     dropcol_tableName := dropcol_tableName b;
     dropcol_columnNames := dropcol_columnNames b;
     dropcol_clusterName := clusterName |}.

Definition dropColumnText (colName : string) : string :=
  " DROP COLUMN " +:+ "`" +:+ colName +:+ "`".

Definition DropColBuild (b : AlterTableDropColumnQueryBuilder) : result string :=
  if decide (dropcol_databaseName b = "") then Err (New "database name is required")
  else if decide (dropcol_tableName b = "") then Err (New "table name is required")
  else if decide (length (dropcol_columnNames b) = 0) then
    Err (New "at least one column name is required")
  else
    Ok ("ALTER TABLE " +:+ "`" +:+ dropcol_databaseName b +:+ "`.`"
        +:+ dropcol_tableName b +:+ "`"
        +:+ alterCluster (dropcol_clusterName b)
        +:+ writeEach "," dropColumnText 0 (dropcol_columnNames b)).

End querybuilder.


(** The error monad of Go's [if err != nil { return ..., err }] chains. *)
Global Instance result_ret : MRet result := λ A v, Ok v.
Global Instance result_bind : MBind result := λ A B f r,
  match r with
  | Ok v => f v
  | Err e => Err e
  end.

(** [errors.WithMessage(err, msg)] on the error side of a result. *)
Definition withMessage {A} (r : result A) (msg : string) : result A :=
  match r with
  | Ok v => Ok v
  | Err e => Err (WithMessage e msg)
  end.

(** ** internal/clickhouseclient: the executor behind dbops

    The package is not among the sources; dbops uses three things of it. *)
Module clickhouseclient.

(** Modelled from the spec: a result row, read by column name with
    [GetString], which fails for a column the row does not have. *)
Definition Row : Type := gmap string string.

Definition GetString (data : Row) (field : string) : result string :=
  match data !! field with
  | Some v => Ok v
  | None => Err (New ("missing field " +:+ field))
  end.

(** Modelled from the spec: the [SqlExecutor] capability of spec section 1,
    [Exec(statement) -> error] and [Query(statement) -> rows, error], over
    a database state [W]. A query reads the state; a statement may
    change it. *)
Class ClickhouseClient (W : Type) : Type := {
  Query : W → string → result (list Row);
  Exec : W → string → option error * W;
}.

(** What [Select(ctx, sql, callback)] does with the rows of the query:
    the callback runs on each row in order and updates the variables it
    closes over (the state [S]); its first error stops the iteration and
    is the error of [Select]. *)
Fixpoint forRows {S : Type} (callback : Row → S → option error * S)
    (rows : list Row) (st : S) : option error * S :=
  match rows with
  | [] => (None, st)
  | data :: rows' =>
      match callback data st with
      | (Some e, st') => (Some e, st')
      | (None, st') => forRows callback rows' st'
      end
  end.

Definition Select `{ClickhouseClient W} {S : Type} (w : W) (sql : string)
    (callback : Row → S → option error * S) (st : S) : option error * S :=
  match Query w sql with
  | Err e => (Some e, st)
  | Ok rows => forRows callback rows st
  end.

End clickhouseclient.

(** ** internal/dbops/table.go *)
Module dbops.
Import clickhouseclient.

Record Table : Type := {
  UUID : string;
  DatabaseName : string;
  Name : string;
  Engine : string;
  Columns : list querybuilder.TableColumn;
  OrderBy : list string;
  PartitionBy : option string;
  PrimaryKey : list string;
  SampleBy : option string;
  TTL : option string;
  Settings : gmap string string;
  Comment : string;
}.

(** The text of the DROP TABLE statement for a table of the catalog; the
    statement that [DeleteTable] is to execute. *)
Definition dropStatement (table : Table) (clusterName : option string) : string :=
  "DROP TABLE `" +:+ DatabaseName table +:+ "`.`" +:+ Name table +:+ "`"
  +:+ match clusterName with
      | Some c => " ON CLUSTER '" +:+ c +:+ "'"
      | None => ""
      end
  +:+ ";".

(** [parseKeyColumns] *)
Definition parseKeyColumns (key : string) : list string :=
  if decide (key = "") then []
  else
    foldl (λ result part,
             let trimmed := Strings.TrimSpace part in
             if decide (trimmed = "") then result else result ++ [trimmed])
          [] (Strings.Split key ",").

(** [s[a:b]] *)
Definition slice (a b : nat) (s : string) : string :=
  Strings.from a (Strings.upto b s).

(** [parseEngineFullForTTLAndSettings] *)
Definition parseEngineFullForTTLAndSettings (engineFull : string)
  : string * gmap string string :=
  let ttl :=
    match Strings.Index engineFull "TTL " with
    | Some idx =>
        let ttlStart := idx + 4 in
        match Strings.Index (Strings.from ttlStart engineFull) " SETTINGS" with
        | None => Strings.TrimSpace (Strings.from ttlStart engineFull)
        | Some ttlEnd =>
            Strings.TrimSpace (slice ttlStart (ttlStart + ttlEnd) engineFull)
        end
    | None => ""
    end in
  let settings :=
    match Strings.Index engineFull "SETTINGS " with
    | Some idx =>
        let settingsStr := Strings.from (idx + 9) engineFull in
        let pairs := Strings.Split settingsStr "," in
        foldl (λ (settings : gmap string string) pair,
                 match Strings.Split (Strings.TrimSpace pair) "=" with
                 | [k; v] => <[Strings.TrimSpace k := Strings.TrimSpace v]> settings
                 | _ => settings
                 end)
              ∅ pairs
    | None => ∅
    end in
  (ttl, settings).

(** A connection: the database behind the client, and the statements
    handed to [Exec] so far, oldest first. The second component is not
    in the Go code; it records what was executed. *)
Record Conn (W : Type) : Type := {
  db : W;
  executed : list string;
}.
Arguments db {W} _.
Arguments executed {W} _.

(** Modelled from the spec: [querybuilder.NewSelect(fields, from)
    .WithCluster(c).Where(WhereEquals(k, v)...).Build()] is not among the
    sources; the text of a catalog query over [from], or a build error. *)
Class SelectBuilder : Type := {
  SelectBuild : list string → string → option string → list (string * string)
                → result string;
}.

Section impl.
Context {W : Type} `{!ClickhouseClient W} `{!SelectBuilder}.

(** [i.clickhouseClient.Exec(ctx, sql)] *)
Definition exec (c : Conn W) (sql : string) : option error * Conn W :=
  let '(err, w) := Exec (db c) sql in
  (err, {| db := w; executed := executed c ++ [sql] |}).

(** The callback of the first query of [GetTable]; the variable it
    closes over is [table]. *)
Definition tableRow (uuid : string) (data : Row) (table : option Table)
  : option error * option Table :=
  let scanned : result Table :=
    dbName ← withMessage (GetString data "database")
      "error scanning query result, missing 'database' field";
    name ← withMessage (GetString data "name")
      "error scanning query result, missing 'name' field";
    engine ← withMessage (GetString data "engine")
      "error scanning query result, missing 'engine' field";
    partitionKey ← withMessage (GetString data "partition_key")
      "error scanning query result, missing 'partition_key' field";
    sortingKey ← withMessage (GetString data "sorting_key")
      "error scanning query result, missing 'sorting_key' field";
    primaryKey ← withMessage (GetString data "primary_key")
      "error scanning query result, missing 'primary_key' field";
    samplingKey ← withMessage (GetString data "sampling_key")
      "error scanning query result, missing 'sampling_key' field";
    engineFull ← withMessage (GetString data "engine_full")
      "error scanning query result, missing 'engine_full' field";
    comment ← withMessage (GetString data "comment")
      "error scanning query result, missing 'comment' field";
    let '(ttl, settings) := parseEngineFullForTTLAndSettings engineFull in
    mret {|
      UUID := uuid;
      DatabaseName := dbName;
      Name := name;
      Engine := engine;
      Columns := [];
      OrderBy := if decide (sortingKey = "") then [] else parseKeyColumns sortingKey;
      PartitionBy := if decide (partitionKey = "") then None else Some partitionKey;
      PrimaryKey := if decide (primaryKey = "") then [] else parseKeyColumns primaryKey;
      SampleBy := if decide (samplingKey = "") then None else Some samplingKey;
      TTL := if decide (ttl = "") then None else Some ttl;
      Settings := if decide (0 < size settings) then settings else ∅;
      Comment := comment;
    |} in
  match scanned with
  | Ok t => (None, Some t)
  | Err e => (Some e, table)
  end.

(** The callback of the second query of [GetTable]; it appends to
    [columns]. *)
Definition columnRow (data : Row) (columns : list querybuilder.TableColumn)
  : option error * list querybuilder.TableColumn :=
  let scanned : result querybuilder.TableColumn :=
    name ← withMessage (GetString data "name")
      "error scanning column result, missing 'name' field";
    colType ← withMessage (GetString data "type")
      "error scanning column result, missing 'type' field";
    defaultExpr ← withMessage (GetString data "default_expression")
      "error scanning column result, missing 'default_expression' field";
    comment ← withMessage (GetString data "comment")
      "error scanning column result, missing 'comment' field";
    mret {|
      querybuilder.Name := name;
      querybuilder.Type_ := colType;
      querybuilder.Default := if decide (defaultExpr = "") then None else Some defaultExpr;
      querybuilder.Comment := if decide (comment = "") then None else Some comment;
    |} in
  match scanned with
  | Ok col => (None, columns ++ [col])
  | Err e => (Some e, columns)
  end.

Definition withColumns (t : Table) (columns : list querybuilder.TableColumn) : Table :=
  {| UUID := UUID t; DatabaseName := DatabaseName t; Name := Name t;
     Engine := Engine t; Columns := columns; OrderBy := OrderBy t;
     PartitionBy := PartitionBy t; PrimaryKey := PrimaryKey t;
     SampleBy := SampleBy t; TTL := TTL t; Settings := Settings t;
     Comment := Comment t |}.

(** [GetTable]: [Ok None] is Go's [(nil, nil)]. *)
Definition GetTable (w : W) (uuid : string) (clusterName : option string)
  : result (option Table) :=
  match SelectBuild
          ["database"; "name"; "engine"; "partition_key"; "sorting_key";
           "primary_key"; "sampling_key"; "engine_full"; "comment"]
          "system.tables" clusterName [("uuid", uuid)] with
  | Err e => Err (WithMessage e "error building query")
  | Ok sql =>
      match Select w sql (tableRow uuid) None with
      | (Some e, _) => Err (WithMessage e "error running query")
      | (None, None) => Ok None
      | (None, Some table) =>
          match SelectBuild ["name"; "type"; "default_expression"; "comment"]
                  "system.columns" clusterName
                  [("database", DatabaseName table); ("table", Name table)] with
          | Err e => Err (WithMessage e "error building columns query")
          | Ok columnsSql =>
              match Select w columnsSql columnRow [] with
              | (Some e, _) => Err (WithMessage e "error querying columns")
              | (None, columns) => Ok (Some (withColumns table columns))
              end
          end
      end
  end.

(** [DeleteTable]: the returned error ([None] is Go's nil) and the
    connection afterwards. *)
Definition DeleteTable (c : Conn W) (uuid : string) (clusterName : option string)
  : option error * Conn W :=
  match GetTable (db c) uuid clusterName with
  | Err e => (Some (WithMessage e "error getting table"), c)
  | Ok None => (None, c)
  | Ok (Some table) =>
      match querybuilder.DropBuild
              (querybuilder.DropWithCluster
                 (querybuilder.NewDropTable (DatabaseName table) (Name table))
                 clusterName) with
      | Err e => (Some (WithMessage e "error building query"), c)
      | Ok sql =>
          match exec c sql with
          | (Some e, c') => (Some (WithMessage e "error running query"), c')
          | (None, c') => (None, c')
          end
      end
  end.

(** The callback of [FindTableByName]; it assigns [uuid] (and the
    enclosing [err]) from the row before it tests the error, so a row
    without the field leaves Go's zero string in [uuid]. *)
Definition uuidRow (data : Row) (uuid : string) : option error * string :=
  match GetString data "uuid" with
  | Ok v => (None, v)
  | Err e =>
      (Some (WithMessage e "error scanning query result, missing 'uuid' field"), "")
  end.

(** [FindTableByName] *)
Definition FindTableByName (w : W) (databaseName tableName : string)
    (clusterName : option string) : result (option Table) :=
  match SelectBuild ["uuid"] "system.tables" clusterName
          [("database", databaseName); ("name", tableName)] with
  | Err e => Err (WithMessage e "error building query")
  | Ok sql =>
      match Select w sql uuidRow "" with
      | (Some e, _) => Err (WithMessage e "error running query")
      | (None, uuid) =>
          if decide (uuid = "") then Err (New "table with such name not found")
          else GetTable w uuid clusterName
      end
  end.

(** The builder that [CreateTable] sets up before it calls [Build]. *)
Definition createBuilder (table : Table) (clusterName : option string)
  : querybuilder.createTableQueryBuilder :=
  let builder :=
    querybuilder.WithComment
      (querybuilder.WithOrderBy
         (querybuilder.WithEngine
            (querybuilder.WithCluster
               (querybuilder.NewCreateTable (DatabaseName table) (Name table)
                  (Columns table))
               clusterName)
            (Engine table))
         (OrderBy table))
      (Comment table) in
  let builder :=
    match PartitionBy table with
    | Some p => querybuilder.WithPartitionBy builder p
    | None => builder
    end in
  let builder :=
    if decide (0 < length (PrimaryKey table))
    then querybuilder.WithPrimaryKey builder (PrimaryKey table) else builder in
  let builder :=
    match SampleBy table with
    | Some e => querybuilder.WithSampleBy builder e
    | None => builder
    end in
  let builder :=
    match TTL table with
    | Some e => querybuilder.WithTTL builder e
    | None => builder
    end in
  if decide (0 < size (Settings table))
  then querybuilder.WithSettings builder (Settings table) else builder.

(** [CreateTable]; [visited] is the order in which [Build] sees the
    settings. *)
Definition CreateTable (c : Conn W) (table : Table) (clusterName : option string)
    (visited : list (string * string)) : result (option Table) * Conn W :=
  match querybuilder.Build (createBuilder table clusterName) visited with
  | Err e => (Err (WithMessage e "error building query"), c)
  | Ok sql =>
      match exec c sql with
      | (Some e, c') => (Err (WithMessage e "error running query"), c')
      | (None, c') =>
          (FindTableByName (db c') (DatabaseName table) (Name table) clusterName, c')
      end
  end.

(** [AddTableColumns] *)
Definition AddTableColumns (c : Conn W) (databaseName tableName : string)
    (columns : list querybuilder.TableColumn) (clusterName : option string)
  : option error * Conn W :=
  match querybuilder.AddBuild
          (querybuilder.AddWithCluster
             (querybuilder.NewAlterTableAddColumn databaseName tableName columns)
             clusterName) with
  | Err e => (Some (WithMessage e "error building ALTER TABLE ADD COLUMN query"), c)
  | Ok query =>
      match exec c query with
      | (Some e, c') => (Some (WithMessage e "error adding columns to table"), c')
      | (None, c') => (None, c')
      end
  end.

(** [DropTableColumns] *)
Definition DropTableColumns (c : Conn W) (databaseName tableName : string)
    (columnNames : list string) (clusterName : option string)
  : option error * Conn W :=
  match querybuilder.DropColBuild
          (querybuilder.DropColWithCluster
             (querybuilder.NewAlterTableDropColumn databaseName tableName columnNames)
             clusterName) with
  | Err e => (Some (WithMessage e "error building ALTER TABLE DROP COLUMN query"), c)
  | Ok query =>
      match exec c query with
      | (Some e, c') => (Some (WithMessage e "error dropping columns from table"), c')
      | (None, c') => (None, c')
      end
  end.

End impl.
End dbops.

(** ** What the specification says of the engine descriptor

    The words of the specification for [parseEngineFullForTTLAndSettings],
    to compare the code with. *)
Module EngineFullSpec.

(** [s] is [pre], then the first occurrence of [token], then [rest]. *)
Definition firstOccurrence (s token pre rest : string) : Prop :=
  s = pre +:+ token +:+ rest
  ∧ ∀ j, j < String.length pre → ¬ Strings.occursAt s token j.

Definition absent (s token : string) : Prop :=
  ∀ i, ¬ Strings.occursAt s token i.

(** A piece that splits on ["="] into exactly a key and a value, both
    trimmed. *)
Definition keyValue (piece : string) : option (string * string) :=
  match Strings.Split (Strings.TrimSpace piece) "=" with
  | [k; v] => Some (Strings.TrimSpace k, Strings.TrimSpace v)
  | _ => None
  end.

(** The map of the pieces that are a key and a value; of two pieces with
    the same key the later one counts. *)
Definition settingsOf (pieces : list string) : gmap string string :=
  list_to_map (reverse (omap keyValue pieces)).

End EngineFullSpec.

(** ** terraform-plugin-framework values, as far as the resource uses them *)
Module types.

(** [types.String]: null, unknown or a known value. *)
Inductive String : Type :=
| StringNull
| StringUnknown
| StringValue (s : string).

Definition StringIsNull (v : String) : bool :=
  match v with StringNull => true | _ => false end.

(** [ValueString]: the known value, the empty string otherwise. *)
Definition ValueString (v : String) : string :=
  match v with StringValue s => s | _ => "" end.

(** [ValueStringPointer]: nil for null, a pointer to [ValueString]
    otherwise. *)
Definition ValueStringPointer (v : String) : option string :=
  match v with
  | StringNull => None
  | StringUnknown => Some ""
  | StringValue s => Some s
  end.

Definition StringPointerValue (p : option string) : String :=
  match p with Some s => StringValue s | None => StringNull end.

(** [Equal]: same state, and the same value when known. *)
Definition StringEqual (a b : String) : bool :=
  match a, b with
  | StringNull, StringNull => true
  | StringUnknown, StringUnknown => true
  | StringValue x, StringValue y => bool_decide (x = y)
  | _, _ => false
  end.

Inductive Bool : Type :=
| BoolNull
| BoolUnknown
| BoolValue (b : bool).

Definition ValueBool (v : Bool) : bool :=
  match v with BoolValue b => b | _ => false end.

(** [types.List] with element type string. *)
Inductive List : Type :=
| ListNull
| ListUnknown
| ListValue (elems : list String).

Definition ListIsNull (v : List) : bool :=
  match v with ListNull => true | _ => false end.

Definition known (v : String) : option string :=
  match v with StringValue s => Some s | _ => None end.

(** [ElementsAs(ctx, &target, false)] into a [[]string]: [None] when the
    diagnostics it returns hold an error, which is the case for an
    unknown list and for an element that is null or unknown. *)
Definition ListElementsAs (v : List) : option (list string) :=
  match v with
  | ListNull => Some []
  | ListUnknown => None
  | ListValue elems => mapM known elems
  end.

(** [types.Map] with element type string. *)
Inductive Map : Type :=
| MapNull
| MapUnknown
| MapValue (elems : gmap string String).

Definition MapIsNull (v : Map) : bool :=
  match v with MapNull => true | _ => false end.

(** [ElementsAs(ctx, &target, false)] into a [map[string]string]. *)
Definition MapElementsAs (v : Map) : option (gmap string string) :=
  match v with
  | MapNull => Some ∅
  | MapUnknown => None
  | MapValue elems =>
      if decide (map_Forall (λ _ e, is_Some (known e)) elems)
      then Some (omap known elems) else None
  end.

End types.

(** Diagnostics of the framework. *)
Module diag.

Inductive Severity : Type := SeverityError | SeverityWarning.

(** The detail text of a diagnostic. [Dump before err after] stands for
    [fmt.Sprintf(before + "%+v" + after, err)]: how the errors package
    prints an error with its stack is left open. *)
Inductive Detail : Type :=
| Text (s : string)
| Dump (before : string) (err : error) (after : string).

Record Diagnostic : Type := {
  severity : Severity;
  summary : string;
  detail : Detail;
}.

Definition Diagnostics : Type := list Diagnostic.

Definition isError (d : Diagnostic) : bool :=
  match severity d with SeverityError => true | SeverityWarning => false end.

Definition HasError (ds : Diagnostics) : bool := existsb isError ds.

Definition AddError (ds : Diagnostics) (summary : string) (detail : Detail) : Diagnostics :=
  ds ++ [{| severity := SeverityError; summary := summary; detail := detail |}].

Definition AddWarning (ds : Diagnostics) (summary : string) (detail : Detail) : Diagnostics :=
  ds ++ [{| severity := SeverityWarning; summary := summary; detail := detail |}].

End diag.

(** ** pkg/resource/table *)
Module table.
Import clickhouseclient types diag.

(** model.go *)
Record Column : Type := {
  Name : String;
  Type_ : String;
  Default : String;
  Comment : String;
}.

Record Table : Type := {
  ClusterName : String;
  UUID : String;
  DatabaseName : String;
  TableName : String;
  Columns : list Column;
  Engine : String;
  OrderBy : List;
  PartitionBy : String;
  PrimaryKey : List;
  SampleBy : String;
  TTL : String;
  Settings : Map;
  TableComment : String;
  AllowDrops : Bool;
}.

(** What [var plan Table] holds before anything is read into it. *)
Definition zeroTable : Table :=
  {| ClusterName := StringNull; UUID := StringNull; DatabaseName := StringNull;
     TableName := StringNull; Columns := []; Engine := StringNull;
     OrderBy := ListNull; PartitionBy := StringNull; PrimaryKey := ListNull;
     SampleBy := StringNull; TTL := StringNull; Settings := MapNull;
     TableComment := StringNull; AllowDrops := BoolNull |}.

(** A plan or a state of the framework: null ([Raw.IsNull()]) or a
    table. [Get] into a [Table] fails on a null one. *)
Definition Get (raw : option Table) : Diagnostics * Table :=
  match raw with
  | Some t => ([], t)
  | None =>
      (AddError [] "Value Conversion Error" (Text "unhandled null value"), zeroTable)
  end.

(** [col.Name.ValueString()], the name a column is compared by. *)
Definition colName (col : Column) : string := ValueString (Name col).

(** The name index built by [Update] and [ModifyPlan]:
    [m[col.Name.ValueString()] = col] for each column in order. *)
Definition columnsByName (cols : list Column) : gmap string Column :=
  foldl (λ m col, <[ValueString (Name col) := col]> m) ∅ cols.

Definition toTableColumn (col : Column) : querybuilder.TableColumn :=
  {| querybuilder.Name := ValueString (Name col);
     querybuilder.Type_ := ValueString (Type_ col);
     querybuilder.Default := ValueStringPointer (Default col);
     querybuilder.Comment := ValueStringPointer (Comment col) |}.

(** [columnsToAdd] of [Update]: the plan columns whose name the state
    does not have, in plan order. *)
Definition columnsToAdd (plan state : Table) : list querybuilder.TableColumn :=
  let stateColumns := columnsByName (Columns state) in
  foldl (λ acc planCol,
           match stateColumns !! ValueString (Name planCol) with
           | None => acc ++ [toTableColumn planCol]
           | Some _ => acc
           end)
        [] (Columns plan).

(** [columnsToRemove] of [Update]: the names of the state columns that
    the plan does not have, in state order. *)
Definition columnsToRemove (plan state : Table) : list string :=
  let planColumns := columnsByName (Columns plan) in
  foldl (λ acc stateCol,
           let colName := ValueString (Name stateCol) in
           match planColumns !! colName with
           | None => acc ++ [colName]
           | Some _ => acc
           end)
        [] (Columns state).

(** [fmt.Sprintf("%v", names)] for a [[]string]. *)
Definition fmtStrings (names : list string) : string :=
  "[" +:+ Strings.Join names " " +:+ "]".

(** [normalizeEngineName] *)
Definition normalizeEngineName (engine : string) : string :=
  match Strings.Index engine "(" with
  | Some idx => Strings.TrimSpace (Strings.upto idx engine)
  | None => Strings.TrimSpace engine
  end.

Definition cloudTransformations : gmap string string :=
  list_to_map
    [("MergeTree", "SharedMergeTree");
     ("ReplacingMergeTree", "SharedReplacingMergeTree");
     ("SummingMergeTree", "SharedSummingMergeTree");
     ("AggregatingMergeTree", "SharedAggregatingMergeTree");
     ("CollapsingMergeTree", "SharedCollapsingMergeTree");
     ("VersionedCollapsingMergeTree", "SharedVersionedCollapsingMergeTree")].

(** [isCloudEngineTransformation]. The loop returns true at the first
    entry that matches, so the order in which the map is visited does
    not change its answer. *)
Definition isCloudEngineTransformation (planned actual : string) : bool :=
  match cloudTransformations !! planned with
  | Some expectedEngine => bool_decide (actual = expectedEngine)
  | None =>
      existsb (λ '(original, shared),
                 bool_decide (planned = shared) && bool_decide (actual = original))
              (map_to_list cloudTransformations)
  end.

(** The engine block of [syncTableState]. *)
Definition syncEngine (plan : option Table) (actual : string) : String :=
  match plan with
  | Some plan =>
      if StringIsNull (Engine plan) then StringValue actual
      else
        let plannedEngine := ValueString (Engine plan) in
        let normalizedPlanned := normalizeEngineName plannedEngine in
        let normalizedActual := normalizeEngineName actual in
        if isCloudEngineTransformation normalizedPlanned normalizedActual
        then Engine plan
        else if decide (normalizedPlanned = normalizedActual) then Engine plan
        else StringValue actual
  | None => StringValue actual
  end.

Definition stringList (l : list string) : List := ListValue (StringValue <$> l).

(** The primary key block of [syncTableState]. *)
Definition syncPrimaryKey (plan : option Table) (actual : list string) : result List :=
  match plan with
  | Some plan =>
      plannedPrimaryKey ←
        (if ListIsNull (PrimaryKey plan) then Ok []
         else match ListElementsAs (PrimaryKey plan) with
              | Some l => Ok l
              | None => Err (New "failed to parse planned primary key")
              end);
      if decide (length plannedPrimaryKey = 0 ∧ 0 < length actual)
      then Ok (PrimaryKey plan)
      else Ok (stringList actual)
  | None => Ok (stringList actual)
  end.

(** The settings block of [syncTableState]: of the settings the
    database reports, the ones whose key the plan has. The keys of the
    planned map are distinct, so the order of the loop does not show in
    the map it fills. *)
Definition syncSettings (plan : option Table) (actual : gmap string string)
  : result Map :=
  match plan with
  | Some plan =>
      if MapIsNull (Settings plan) then Ok (MapValue ∅)
      else
        match MapElementsAs (Settings plan) with
        | None => Err (New "failed to parse planned settings")
        | Some plannedSettings =>
            Ok (MapValue
                  (foldl (λ (settingsMap : gmap string String) (kv : string * string),
                            match actual !! kv.1 with
                            | Some v => <[kv.1 := StringValue v]> settingsMap
                            | None => settingsMap
                            end)
                         ∅ (map_to_list plannedSettings)))
        end
  | None => Ok (MapValue ∅)
  end.

Definition syncTTL (plan : option Table) (actual : option string) : String :=
  match plan, actual with
  | Some plan, Some _ =>
      if StringIsNull (TTL plan) then StringPointerValue actual else TTL plan
  | _, _ => StringPointerValue actual
  end.

Definition fromTableColumn (col : querybuilder.TableColumn) : Column :=
  {| Name := StringValue (querybuilder.Name col);
     Type_ := StringValue (querybuilder.Type_ col);
     Default := StringPointerValue (querybuilder.Default col);
     Comment := StringPointerValue (querybuilder.Comment col) |}.

Section Resource.
Context {W : Type} `{!ClickhouseClient W} `{!dbops.SelectBuilder}.

(** [syncTableState]; [Ok None] is Go's [(nil, nil)]. *)
Definition syncTableState (w : W) (uuid : string) (clusterName : option string)
    (plan : option Table) : result (option Table) :=
  table ← withMessage (dbops.GetTable w uuid clusterName) "cannot get table";
  match table with
  | None => Ok None
  | Some table =>
      let columns := fromTableColumn <$> dbops.Columns table in
      let orderByList := stringList (dbops.OrderBy table) in
      primaryKeyList ← syncPrimaryKey plan (dbops.PrimaryKey table);
      settings ← syncSettings plan (dbops.Settings table);
      let engine := syncEngine plan (dbops.Engine table) in
      let ttl := syncTTL plan (dbops.TTL table) in
      let allowDrops :=
        match plan with
        | Some plan => AllowDrops plan
        | None => BoolValue false
        end in
      Ok (Some {|
        ClusterName := StringPointerValue clusterName;
        UUID := StringValue (dbops.UUID table);
        DatabaseName := StringValue (dbops.DatabaseName table);
        TableName := StringValue (dbops.Name table);
        Columns := columns;
        Engine := engine;
        OrderBy := orderByList;
        PartitionBy := StringPointerValue (dbops.PartitionBy table);
        PrimaryKey := primaryKeyList;
        SampleBy := StringPointerValue (dbops.SampleBy table);
        TTL := ttl;
        Settings := settings;
        TableComment := StringValue (dbops.Comment table);
        AllowDrops := allowDrops;
      |})
  end.

Record UpdateRequest : Type := {
  upd_Plan : option Table;
  upd_State : option Table;
}.

Record UpdateResponse : Type := {
  upd_NewState : option Table;
  upd_Diagnostics : Diagnostics;
}.

Definition updAppend (resp : UpdateResponse) (ds : Diagnostics) : UpdateResponse :=
  {| upd_NewState := upd_NewState resp;
     upd_Diagnostics := upd_Diagnostics resp ++ ds |}.

Definition updAddError (resp : UpdateResponse) (summary : string) (detail : Detail)
  : UpdateResponse :=
  {| upd_NewState := upd_NewState resp;
     upd_Diagnostics := AddError (upd_Diagnostics resp) summary detail |}.

(** [resp.State.Set(ctx, updatedState)]: a nil pointer sets the null
    state. *)
Definition updSetState (resp : UpdateResponse) (st : option Table) : UpdateResponse :=
  {| upd_NewState := st; upd_Diagnostics := upd_Diagnostics resp |}.

(** [Update] from "Add new columns if any" on. *)
Definition updateAddAndSync (plan state : Table) (resp : UpdateResponse)
    (c : dbops.Conn W) : UpdateResponse * dbops.Conn W :=
  let columnsToAdd := columnsToAdd plan state in
  let '(err, c) :=
    if decide (0 < length columnsToAdd) then
      dbops.AddTableColumns c (ValueString (DatabaseName state))
        (ValueString (TableName state)) columnsToAdd
        (ValueStringPointer (ClusterName state))
    else (None, c) in
  match err with
  | Some err =>
      (updAddError resp "Error adding columns to table"
         (Dump "Failed to add columns: " err "
"), c)
  | None =>
      match syncTableState (dbops.db c) (ValueString (UUID state))
              (ValueStringPointer (ClusterName state)) (Some plan) with
      | Err err =>
          (updAddError resp "Error syncing table state" (Dump "" err "
"), c)
      | Ok updatedState => (updSetState resp updatedState, c)
      end
  end.

(** [Update]: the response it leaves and the connection afterwards. *)
Definition Update (req : UpdateRequest) (resp : UpdateResponse) (c : dbops.Conn W)
  : UpdateResponse * dbops.Conn W :=
  let '(diags, plan) := Get (upd_Plan req) in
  let resp := updAppend resp diags in
  let '(diags, state) := Get (upd_State req) in
  let resp := updAppend resp diags in
  if HasError (upd_Diagnostics resp) then (resp, c)
  else
    let columnsToRemove := columnsToRemove plan state in
    if decide (0 < length columnsToRemove) then
      if negb (ValueBool (AllowDrops plan)) then
        (updAddError resp "Column removal not allowed"
           (Text ("Cannot remove columns " +:+ fmtStrings columnsToRemove
                  +:+ " because 'allow_drops' is set to false. To allow column removal, set 'allow_drops = true' in your table configuration.")),
         c)
      else
        match dbops.DropTableColumns c (ValueString (DatabaseName state))
                (ValueString (TableName state)) columnsToRemove
                (ValueStringPointer (ClusterName state)) with
        | (Some err, c) =>
            (updAddError resp "Error removing columns from table"
               (Dump "Failed to remove columns: " err "
"), c)
        | (None, c) => updateAddAndSync plan state resp c
        end
    else updateAddAndSync plan state resp c.

Record ReadResponse : Type := {
  read_State : option Table;
  read_Diagnostics : Diagnostics;
}.

(** [Read]: the request carries the prior state; [RemoveResource] sets the
    null state. *)
Definition Read (reqState : option Table) (resp : ReadResponse) (w : W) : ReadResponse :=
  let '(diags, plan) := Get reqState in
  let ds := read_Diagnostics resp ++ diags in
  if HasError ds then {| read_State := read_State resp; read_Diagnostics := ds |}
  else
    match syncTableState w (ValueString (UUID plan))
            (ValueStringPointer (ClusterName plan)) (Some plan) with
    | Err err =>
        {| read_State := read_State resp;
           read_Diagnostics := AddError ds "Error syncing table" (Dump "" err "
") |}
    | Ok None => {| read_State := None; read_Diagnostics := ds |}
    | Ok (Some state) => {| read_State := Some state; read_Diagnostics := ds |}
    end.

Record DeleteResponse : Type := {
  del_Diagnostics : Diagnostics;
}.

(** [Delete]; the request carries the prior state. *)
Definition Delete (reqState : option Table) (resp : DeleteResponse) (c : dbops.Conn W)
  : DeleteResponse * dbops.Conn W :=
  let '(diags, plan) := Get reqState in
  let ds := del_Diagnostics resp ++ diags in
  if HasError ds then ({| del_Diagnostics := ds |}, c)
  else if negb (ValueBool (AllowDrops plan)) then
    ({| del_Diagnostics :=
          AddError ds "Table deletion not allowed"
            (Text ("Cannot delete table '" +:+ ValueString (TableName plan)
                   +:+ "' because 'allow_drops' is set to false. To allow table deletion, set 'allow_drops = true' in your table configuration.")) |},
     c)
  else
    match dbops.DeleteTable c (ValueString (UUID plan))
            (ValueStringPointer (ClusterName plan)) with
    | (Some err, c) =>
        ({| del_Diagnostics := AddError ds "Error deleting table" (Dump "" err "
") |}, c)
    | (None, c) => ({| del_Diagnostics := ds |}, c)
    end.

End Resource.

(** *** ModifyPlan *)
Record ModifyPlanRequest : Type := {
  mp_Plan : option Table;
  mp_State : option Table;
}.

Record ModifyPlanResponse : Type := {
  mp_Diagnostics : Diagnostics;
  RequiresReplace : list string;
}.

Definition mpAppend (resp : ModifyPlanResponse) (ds : Diagnostics) : ModifyPlanResponse :=
  {| mp_Diagnostics := mp_Diagnostics resp ++ ds;
     RequiresReplace := RequiresReplace resp |}.

(** [orderBySet] of [ModifyPlan]: [None] when [ElementsAs] reports an
    error. *)
Definition orderBySet (state : Table) : option (gmap string bool) :=
  orderByColumns ←
    (if ListIsNull (OrderBy state) then Some [] else ListElementsAs (OrderBy state));
  mret (foldl (λ (m : gmap string bool) col, <[col := true]> m) ∅ orderByColumns).

(** The loop of [ModifyPlan] over the state columns still to visit.
    Its state is the diagnostics and [requiresReplace]; [inl] is the
    [return] inside the loop, [inr] its normal end. *)
Fixpoint checkColumns (plan : Table) (planColumns : gmap string Column)
    (orderBySet : gmap string bool) (cols : list Column)
    (ds : Diagnostics) (requiresReplace : bool) : Diagnostics + Diagnostics * bool :=
  match cols with
  | [] => inr (ds, requiresReplace)
  | stateCol :: cols' =>
      let colName := ValueString (Name stateCol) in
      match planColumns !! colName with
      | None =>
          if negb (ValueBool (AllowDrops plan)) then
            inl (AddError ds "Column removal not allowed"
                   (Text ("Column '" +:+ colName
                          +:+ "' cannot be removed because 'allow_drops' is set to false. To allow column removal, set 'allow_drops = true' in your table configuration.")))
          else if default false (orderBySet !! colName) then
            checkColumns plan planColumns orderBySet cols'
              (AddWarning ds "Cannot remove column in ORDER BY"
                 (Text ("Column '" +:+ colName
                        +:+ "' is part of the table's ORDER BY clause and cannot be removed. This requires recreating the table.")))
              true
          else checkColumns plan planColumns orderBySet cols' ds requiresReplace
      | Some planCol =>
          if negb (StringEqual (Type_ stateCol) (Type_ planCol)) then
            checkColumns plan planColumns orderBySet cols'
              (AddWarning ds "Column type change requires table recreation"
                 (Text ("Column '" +:+ colName +:+ "' type change from '"
                        +:+ ValueString (Type_ stateCol) +:+ "' to '"
                        +:+ ValueString (Type_ planCol)
                        +:+ "' requires recreating the table.")))
              true
          else checkColumns plan planColumns orderBySet cols' ds requiresReplace
      end
  end.

(** [ModifyPlan]; [path.Root("columns")] is the string ["columns"]. *)
Definition ModifyPlan (req : ModifyPlanRequest) (resp : ModifyPlanResponse)
  : ModifyPlanResponse :=
  match mp_Plan req, mp_State req with
  | None, _ => resp
  | _, None => resp
  | Some _, Some _ =>
      let '(diags, plan) := Get (mp_Plan req) in
      let resp := mpAppend resp diags in
      let '(diags, state) := Get (mp_State req) in
      let resp := mpAppend resp diags in
      if HasError (mp_Diagnostics resp) then resp
      else
        let planColumns := columnsByName (Columns plan) in
        match orderBySet state with
        | None =>
            (* the diagnostics of the failed ElementsAs; their text is
               the framework's *)
            mpAppend resp
              (AddError [] "List Type Validation Error" (Text "cannot reflect list"))
        | Some orderBySet =>
            match checkColumns plan planColumns orderBySet (Columns state)
                    (mp_Diagnostics resp) false with
            | inl ds =>
                {| mp_Diagnostics := ds; RequiresReplace := RequiresReplace resp |}
            | inr (ds, requiresReplace) =>
                {| mp_Diagnostics := ds;
                   RequiresReplace :=
                     if requiresReplace then RequiresReplace resp ++ ["columns"]
                     else RequiresReplace resp |}
            end
        end
  end.

End table.

(** ** Vocabulary for the further properties *)
Module Vocabulary.

(** An optional text with the empty text taken as absent. *)
Definition blankAsAbsent (o : option string) : option string :=
  match o with
  | Some s => if decide (s = "") then None else Some s
  | None => None
  end.

Definition blankColumn (col : querybuilder.TableColumn) : querybuilder.TableColumn :=
  {| querybuilder.Name := querybuilder.Name col;
     querybuilder.Type_ := querybuilder.Type_ col;
     querybuilder.Default := blankAsAbsent (querybuilder.Default col);
     querybuilder.Comment := blankAsAbsent (querybuilder.Comment col) |}.

(** A text that [strings.TrimSpace] leaves as it is. *)
Definition trimmed (s : string) : Prop := Strings.TrimSpace s = s.

(** A column name as a sorting or primary key lists it: not empty, no
    white space around it, no comma in it. *)
Definition keyName (s : string) : Prop :=
  s ≠ "" ∧ trimmed s ∧ ∀ i, ¬ Strings.occursAt s "," i.

(** A table as a descriptor row of the catalog is stored: under the uuid
    that was asked for, and with nothing present but empty. *)
Definition observedShape (uuid : string) (t : dbops.Table) : Prop :=
  dbops.UUID t = uuid
  ∧ dbops.PartitionBy t ≠ Some "" ∧ dbops.SampleBy t ≠ Some ""
  ∧ dbops.TTL t ≠ Some ""
  ∧ Forall (λ x, x ≠ "") (dbops.OrderBy t)
  ∧ Forall (λ x, x ≠ "") (dbops.PrimaryKey t).

(** The texts of the two ALTER TABLE statements. *)
Definition alterDropSql (databaseName tableName : string) (columnNames : list string)
    (clusterName : option string) : string :=
  "ALTER TABLE `" +:+ databaseName +:+ "`.`" +:+ tableName +:+ "`"
  +:+ querybuilder.alterCluster clusterName
  +:+ querybuilder.writeEach "," querybuilder.dropColumnText 0 columnNames.

Definition alterAddSql (databaseName tableName : string)
    (columns : list querybuilder.TableColumn) (clusterName : option string) : string :=
  "ALTER TABLE `" +:+ databaseName +:+ "`.`" +:+ tableName +:+ "`"
  +:+ querybuilder.alterCluster clusterName
  +:+ querybuilder.writeEach "," querybuilder.addColumnText 0 columns.

(** Two engine families count as the same engine: equal names, or a pair
    of the table of cloud transformations, in either direction. *)
Definition sameFamily (a b : string) : Prop :=
  a = b
  ∨ table.cloudTransformations !! a = Some b
  ∨ table.cloudTransformations !! b = Some a.

(** A column of the state whose plan column, looked up by name, has
    another type. *)
Definition typeChanged (planColumns : gmap string table.Column) (stateCol : table.Column)
  : bool :=
  match planColumns !! table.colName stateCol with
  | Some planCol =>
      negb (types.StringEqual (table.Type_ stateCol) (table.Type_ planCol))
  | None => false
  end.

End Vocabulary.

(** ** A small database to run the code on

    The catalog is a table from the text of a query to its rows; every
    statement succeeds and leaves the catalog as it is. *)
Module Mock.
Import clickhouseclient.

Definition whereText (kv : string * string) : string :=
  kv.1 +:+ " = " +:+ querybuilder.quote kv.2.

#[export] Instance builder : dbops.SelectBuilder := {|
  dbops.SelectBuild fields from clusterName wheres :=
    Ok ("SELECT " +:+ Strings.Join fields ", " +:+ " FROM " +:+ from
        +:+ " WHERE " +:+ Strings.Join (whereText <$> wheres) " AND ")
|}.

#[export] Instance client : ClickhouseClient (gmap string (list Row)) := {|
  Query w sql := Ok (default [] (w !! sql));
  Exec w sql := (None, w)
|}.

Definition tablesSql (uuid : string) : string :=
  "SELECT database, name, engine, partition_key, sorting_key, primary_key, sampling_key, engine_full, comment FROM system.tables WHERE uuid = '"
  +:+ uuid +:+ "'".

Definition columnsSql (database name : string) : string :=
  "SELECT name, type, default_expression, comment FROM system.columns WHERE database = '"
  +:+ database +:+ "' AND table = '" +:+ name +:+ "'".

Definition nameSql (database name : string) : string :=
  "SELECT uuid FROM system.tables WHERE database = '"
  +:+ database +:+ "' AND name = '" +:+ name +:+ "'".

Definition tableRowOf (database name engine sortingKey engineFull : string) : Row :=
  list_to_map
    [("database", database); ("name", name); ("engine", engine);
     ("partition_key", ""); ("sorting_key", sortingKey); ("primary_key", sortingKey);
     ("sampling_key", ""); ("engine_full", engineFull); ("comment", "")].

Definition columnRowOf (name type : string) : Row :=
  list_to_map
    [("name", name); ("type", type); ("default_expression", ""); ("comment", "")].

(** One table [db.events (id UInt64, ts DateTime)] with the given engine,
    known under the uuid ["u-1"]. *)
Definition catalog (engine engineFull : string) : gmap string (list Row) :=
  list_to_map
    [(tablesSql "u-1", [tableRowOf "db" "events" engine "id" engineFull]);
     (columnsSql "db" "events", [columnRowOf "id" "UInt64"; columnRowOf "ts" "DateTime"]);
     (nameSql "db" "events", [({[ "uuid" := "u-1" ]} : Row)])].

Definition conn (w : gmap string (list Row)) : dbops.Conn (gmap string (list Row)) :=
  {| dbops.db := w; dbops.executed := [] |}.

End Mock.


(** ** Sample builders and tables for the worked examples *)
Module Samples.
Import types.

Definition col (name type : string) : querybuilder.TableColumn :=
  {| querybuilder.Name := name; querybuilder.Type_ := type;
     querybuilder.Default := None; querybuilder.Comment := None |}.

(** The builder of the case "table with settings" of createtable_test.go. *)
Definition optimized : querybuilder.createTableQueryBuilder :=
  querybuilder.WithSettings
    (querybuilder.WithOrderBy
       (querybuilder.WithEngine
          (querybuilder.NewCreateTable "mydb" "optimized" [col "id" "UInt64"])
          "MergeTree()")
       ["id"])
    (list_to_map [("index_granularity", "16384"); ("merge_with_ttl_timeout", "86400")]).

(** The table [db.events (id UInt64, ts DateTime)] as dbops is asked to
    create it. *)
Definition events : dbops.Table :=
  {| dbops.UUID := ""; dbops.DatabaseName := "db"; dbops.Name := "events";
     dbops.Engine := "MergeTree()";
     dbops.Columns := [col "id" "UInt64"; col "ts" "DateTime"];
     dbops.OrderBy := ["id"]; dbops.PartitionBy := None; dbops.PrimaryKey := [];
     dbops.SampleBy := None; dbops.TTL := None; dbops.Settings := ∅;
     dbops.Comment := "" |}.

Definition column (name type : string) : table.Column :=
  {| table.Name := StringValue name; table.Type_ := StringValue type;
     table.Default := StringNull; table.Comment := StringNull |}.

(** A table [db.events] ordered by [id], as the resource holds it. *)
Definition tableWith (cols : list table.Column) (allowDrops : bool) : table.Table :=
  {| table.ClusterName := StringNull; table.UUID := StringValue "u-1";
     table.DatabaseName := StringValue "db"; table.TableName := StringValue "events";
     table.Columns := cols; table.Engine := StringValue "MergeTree()";
     table.OrderBy := table.stringList ["id"]; table.PartitionBy := StringNull;
     table.PrimaryKey := table.stringList []; table.SampleBy := StringNull;
     table.TTL := StringNull; table.Settings := MapValue ∅;
     table.TableComment := StringValue "";
     table.AllowDrops := BoolValue allowDrops |}.

Definition withEngine (t : table.Table) (engine : string) : table.Table :=
  {| table.ClusterName := table.ClusterName t; table.UUID := table.UUID t;
     table.DatabaseName := table.DatabaseName t; table.TableName := table.TableName t;
     table.Columns := table.Columns t; table.Engine := StringValue engine;
     table.OrderBy := table.OrderBy t; table.PartitionBy := table.PartitionBy t;
     table.PrimaryKey := table.PrimaryKey t; table.SampleBy := table.SampleBy t;
     table.TTL := table.TTL t; table.Settings := table.Settings t;
     table.TableComment := table.TableComment t;
     table.AllowDrops := table.AllowDrops t |}.

Definition withSettings (t : table.Table) (planned : gmap string string) : table.Table :=
  {| table.ClusterName := table.ClusterName t; table.UUID := table.UUID t;
     table.DatabaseName := table.DatabaseName t; table.TableName := table.TableName t;
     table.Columns := table.Columns t; table.Engine := table.Engine t;
     table.OrderBy := table.OrderBy t; table.PartitionBy := table.PartitionBy t;
     table.PrimaryKey := table.PrimaryKey t; table.SampleBy := table.SampleBy t;
     table.TTL := table.TTL t; table.Settings := MapValue (StringValue <$> planned);
     table.TableComment := table.TableComment t;
     table.AllowDrops := table.AllowDrops t |}.

Definition withPrimaryKey (t : table.Table) (primaryKey : List) : table.Table :=
  {| table.ClusterName := table.ClusterName t; table.UUID := table.UUID t;
     table.DatabaseName := table.DatabaseName t; table.TableName := table.TableName t;
     table.Columns := table.Columns t; table.Engine := table.Engine t;
     table.OrderBy := table.OrderBy t; table.PartitionBy := table.PartitionBy t;
     table.PrimaryKey := primaryKey; table.SampleBy := table.SampleBy t;
     table.TTL := table.TTL t; table.Settings := table.Settings t;
     table.TableComment := table.TableComment t;
     table.AllowDrops := table.AllowDrops t |}.

End Samples.

(** * Properties *)

#[local] Arguments String.append !_ _ / : simpl nomatch.

(** ** The examples of the Go tests, and a few more *)

Example TrimSpace_ascii : Strings.TrimSpace "  a b	 " = "a b".
Proof. reflexivity. Qed.

Example Split_commas : Strings.Split "a,b,,c" "," = ["a"; "b"; ""; "c"].
Proof. reflexivity. Qed.

Example Split_empty : Strings.Split "" "," = [""].
Proof. reflexivity. Qed.

Example Index_first : Strings.Index "a TTL b TTL c" "TTL " = Some 2.
Proof. reflexivity. Qed.

Example DropBuild_cluster :
  querybuilder.DropBuild
    (querybuilder.DropWithCluster
       (querybuilder.NewDropTable "mydb" "distributed_table") (Some "my_cluster"))
  = Ok "DROP TABLE `mydb`.`distributed_table` ON CLUSTER 'my_cluster';".
Proof. reflexivity. Qed.

Module BuilderTests.
Import querybuilder Samples.

Example simple_MergeTree :
  Build (WithOrderBy (WithEngine
           (NewCreateTable "mydb" "mytable" [col "id" "UInt64"; col "name" "String"])
           "MergeTree()") ["id"]) []
  = Ok "CREATE TABLE `mydb`.`mytable` (`id` UInt64, `name` String) ENGINE = MergeTree() ORDER BY (`id`);".
Proof. reflexivity. Qed.

Example primary_key_and_sample_by :
  Build (WithSampleBy (WithPrimaryKey (WithOrderBy (WithEngine
           (NewCreateTable "mydb" "metrics"
              [col "server_id" "UInt32"; col "timestamp" "DateTime"; col "value" "Float64"])
           "MergeTree()") ["server_id"; "timestamp"]) ["server_id"])
           "intHash32(server_id)") []
  = Ok "CREATE TABLE `mydb`.`metrics` (`server_id` UInt32, `timestamp` DateTime, `value` Float64) ENGINE = MergeTree() ORDER BY (`server_id`, `timestamp`) PRIMARY KEY (`server_id`) SAMPLE BY intHash32(server_id);".
Proof. reflexivity. Qed.

Example add_multiple_columns :
  AddBuild (NewAlterTableAddColumn "mydb" "mytable"
    [col "col1" "UInt64";
     {| Name := "col2"; Type_ := "String"; Default := Some "''"; Comment := None |};
     {| Name := "col3"; Type_ := "Float64"; Default := None; Comment := Some "Score value" |}])
  = Ok "ALTER TABLE `mydb`.`mytable` ADD COLUMN `col1` UInt64, ADD COLUMN `col2` String DEFAULT '', ADD COLUMN `col3` Float64 COMMENT 'Score value'".
Proof. reflexivity. Qed.

Example drop_with_cluster :
  DropColBuild (DropColWithCluster
    (NewAlterTableDropColumn "mydb" "mytable" ["old_col"]) (Some "my_cluster"))
  = Ok "ALTER TABLE `mydb`.`mytable` ON CLUSTER 'my_cluster' DROP COLUMN `old_col`".
Proof. reflexivity. Qed.
End BuilderTests.

Module MockRuns.
Import Mock.

Example GetTable_events :
  dbops.GetTable (catalog "MergeTree" "MergeTree ORDER BY id TTL ts + toIntervalDay(30) SETTINGS index_granularity = 8192") "u-1" None
  = Ok (Some {|
      dbops.UUID := "u-1"; dbops.DatabaseName := "db"; dbops.Name := "events";
      dbops.Engine := "MergeTree";
      dbops.Columns := [Samples.col "id" "UInt64"; Samples.col "ts" "DateTime"];
      dbops.OrderBy := ["id"]; dbops.PartitionBy := None; dbops.PrimaryKey := ["id"];
      dbops.SampleBy := None; dbops.TTL := Some "ts + toIntervalDay(30)";
      dbops.Settings := {[ "index_granularity" := "8192" ]};
      dbops.Comment := "" |}).
Proof. vm_compute. reflexivity. Qed.

Example DeleteTable_events :
  let after :=
    dbops.DeleteTable (conn (catalog "MergeTree" "MergeTree ORDER BY id")) "u-1" None in
  after.1 = None ∧ dbops.executed after.2 = ["DROP TABLE `db`.`events`;"].
Proof. split; vm_compute; reflexivity. Qed.
End MockRuns.

(** ** Facts about strings *)
Section string_facts.
Import Strings.

Lemma sapp_assoc (a b c : string) : (a +:+ b) +:+ c = a +:+ b +:+ c.
Proof. induction a as [|x a IH]; cbn; [done|]. by rewrite IH. Qed.

Lemma sapp_nil_r (a : string) : a +:+ "" = a.
Proof. induction a as [|x a IH]; cbn; [done|]. by rewrite IH. Qed.

Lemma slength_app (a b : string) :
  String.length (a +:+ b) = String.length a + String.length b.
Proof. induction a as [|x a IH]; cbn; [done|]. by rewrite IH. Qed.

Lemma upto_from (n : nat) (s : string) : upto n s +:+ from n s = s.
Proof.
  revert s. induction n as [|n IH]; intros [|x s]; cbn; try done.
  by rewrite IH.
Qed.

Lemma from_app (p q : string) : from (String.length p) (p +:+ q) = q.
Proof. induction p as [|x p IH]; cbn; [by destruct q|done]. Qed.

Lemma upto_app (p q : string) : upto (String.length p) (p +:+ q) = p.
Proof. induction p as [|x p IH]; cbn; [by destruct q|]. by rewrite IH. Qed.

Lemma length_upto (n : nat) (s : string) :
  n ≤ String.length s → String.length (upto n s) = n.
Proof.
  revert s. induction n as [|n IH]; intros [|x s]; cbn; try done; try lia.
  intros H. rewrite IH; lia.
Qed.

Lemma length_from (n : nat) (s : string) :
  String.length (from n s) = String.length s - n.
Proof. revert s. induction n as [|n IH]; intros [|x s]; cbn; try done. Qed.

Lemma prefix_spec (p s : string) :
  String.prefix p s = true ↔ ∃ q, s = p +:+ q.
Proof.
  revert s. induction p as [|x p IH]; intros [|y s]; cbn.
  - split; eauto.
  - split; eauto.
  - split; [done|by intros [q ?]].
  - destruct (ascii_dec x y) as [->|Hne].
    + rewrite IH. split; intros [q Hq]; exists q; congruence.
    + split; [done|]. intros [q Hq]. congruence.
Qed.

Lemma occursAt_0 (s substr : string) :
  occursAt s substr 0 ↔ String.prefix substr s = true.
Proof.
  rewrite prefix_spec. split.
  - intros ([|??] & q & -> & Hl); [eauto|done].
  - intros [q ->]. by exists "", q.
Qed.

Lemma occursAt_S (x : ascii) (s substr : string) (i : nat) :
  occursAt (String x s) substr (S i) ↔ occursAt s substr i.
Proof.
  split.
  - intros ([|y p] & q & Heq & Hl); [done|].
    cbn in Heq, Hl. exists p, q. split; congruence.
  - intros (p & q & -> & Hl). exists (String x p), q. cbn. by rewrite Hl.
Qed.

Lemma occursAt_nil (substr : string) (i : nat) :
  occursAt "" substr i → i = 0.
Proof. intros ([|??] & q & Heq & Hl); [done|]. cbn in Heq. done. Qed.

(** [Index] finds the first occurrence. *)
Lemma Index_Some (s substr : string) (i : nat) :
  Index s substr = Some i
  ↔ occursAt s substr i ∧ ∀ j, j < i → ¬ occursAt s substr j.
Proof.
  revert i. induction s as [|x s IH]; intros i; cbn [Index].
  - destruct (String.prefix substr "") eqn:Hp.
    + apply occursAt_0 in Hp. split.
      * intros [= <-]. split; [done|lia].
      * intros [Hi _]. apply occursAt_nil in Hi. by subst.
    + split; [done|]. intros [Hi _].
      assert (i = 0) as -> by by eapply occursAt_nil.
      apply occursAt_0 in Hi. congruence.
  - destruct (String.prefix substr (String x s)) eqn:Hp.
    + apply occursAt_0 in Hp. split.
      * intros [= <-]. split; [done|lia].
      * intros [_ Hmin]. destruct i as [|i]; [done|].
        destruct (Hmin 0); [lia|done].
    + assert (¬ occursAt (String x s) substr 0) as H0.
      { rewrite occursAt_0. congruence. }
      destruct i as [|i]; rewrite fmap_Some.
      * split; [by intros (k & _ & [=])|naive_solver].
      * split.
        -- intros (k & Hk & [= ->]). apply IH in Hk as [Hk Hmin].
           split; [by apply occursAt_S|].
           intros [|j] Hj; [done|]. rewrite occursAt_S. apply Hmin. lia.
        -- intros [Hi Hmin]. exists i. split; [|done].
           apply IH. split; [by apply occursAt_S in Hi|].
           intros j Hj Hocc. apply (Hmin (S j)); [lia|]. by apply occursAt_S.
Qed.

Lemma Index_None (s substr : string) :
  Index s substr = None ↔ ∀ i, ¬ occursAt s substr i.
Proof.
  induction s as [|x s IH]; cbn [Index].
  - destruct (String.prefix substr "") eqn:Hp.
    + apply occursAt_0 in Hp. naive_solver.
    + split; [|done]. intros _ i Hi.
      assert (i = 0) as -> by by eapply occursAt_nil.
      apply occursAt_0 in Hi. congruence.
  - destruct (String.prefix substr (String x s)) eqn:Hp.
    + apply occursAt_0 in Hp. naive_solver.
    + rewrite fmap_None, IH. split.
      * intros Hn [|i] Hi.
        -- apply occursAt_0 in Hi. congruence.
        -- apply occursAt_S in Hi. by eapply Hn.
      * intros Hn i Hi. apply (Hn (S i)). by apply occursAt_S.
Qed.

(** The text before and after the occurrence that [Index] finds. *)
Lemma Index_split (s substr : string) (i : nat) :
  Index s substr = Some i →
  s = upto i s +:+ substr +:+ from (i + String.length substr) s
  ∧ String.length (upto i s) = i.
Proof.
  intros [(p & q & -> & Hl) _]%Index_Some. subst i.
  rewrite upto_app. split; [|done].
  rewrite <- slength_app, <- (sapp_assoc p substr q), from_app.
  by rewrite sapp_assoc.
Qed.

End string_facts.

(** Bring both sides of an equation between appended strings to the
    right-nested form. *)
Ltac string_norm := repeat first [rewrite sapp_assoc | progress cbn].

(** ** The statement builders *)
Section builders.
Import querybuilder.

Lemma DropBuild_ok (q : dropTableQueryBuilder) :
  drop_databaseName q ≠ "" → drop_tableName q ≠ "" →
  DropBuild q =
    Ok ("DROP TABLE " +:+ backtick (drop_databaseName q) +:+ "."
        +:+ backtick (drop_tableName q)
        +:+ match drop_clusterName q with
            | Some c => " ON CLUSTER " +:+ quote c
            | None => ""
            end
        +:+ ";").
Proof.
  intros Hd Ht. unfold DropBuild.
  destruct (decide (drop_databaseName q = "")) as [|_]; [done|].
  destruct (decide (drop_tableName q = "")) as [|_]; [done|].
  f_equal. destruct (drop_clusterName q) as [c|]; cbn.
  - by string_norm.
  - by string_norm.
Qed.

Lemma DropBuild_err (q : dropTableQueryBuilder) :
  drop_databaseName q = "" ∨ drop_tableName q = "" → ∃ e, DropBuild q = Err e.
Proof.
  intros H. unfold DropBuild.
  destruct (decide (drop_databaseName q = "")); [eauto|].
  destruct (decide (drop_tableName q = "")); [eauto|].
  naive_solver.
Qed.

(** C4. [createTableQueryBuilder.Build] returns an error exactly when the
    database name, the table name or the engine is empty or there is no
    column; each of the four is enough, whatever the other fields and
    the order of the settings are. *)
Theorem Build_fails_iff (q : createTableQueryBuilder) (visited : list (string * string)) :
  is_err (Build q visited) = true
  ↔ databaseName q = "" ∨ tableName q = "" ∨ engine q = "" ∨ columns q = [].
Proof.
  unfold Build.
  destruct (decide (databaseName q = "")) as [Hd|Hd]; [naive_solver|].
  destruct (decide (tableName q = "")) as [Ht|Ht]; [naive_solver|].
  destruct (decide (length (columns q) = 0)) as [Hc|Hc].
  { apply length_zero_iff_nil in Hc. naive_solver. }
  destruct (decide (engine q = "")) as [He|He]; [naive_solver|].
  cbn. split; [done|].
  intros [?|[?|[?|Hnil]]]; try done.
  rewrite Hnil in Hc. done.
Qed.

End builders.

(** ** The catalog reader and the operations on a table *)
Section dbops_facts.
Import clickhouseclient dbops.
Context {W : Type} `{!ClickhouseClient W} `{!SelectBuilder}.

Lemma Select_no_rows {S : Type} (w : W) (sql : string)
    (callback : Row → S → option error * S) (st : S) :
  Query w sql = Ok [] → Select w sql callback st = (None, st).
Proof. intros Hrows. unfold Select. by rewrite Hrows. Qed.

Lemma DropBuild_table (table : Table) (clusterName : option string) :
  DatabaseName table ≠ "" → Name table ≠ "" →
  querybuilder.DropBuild
    (querybuilder.DropWithCluster
       (querybuilder.NewDropTable (DatabaseName table) (Name table)) clusterName)
  = Ok (dropStatement table clusterName).
Proof.
  intros Hd Hn. rewrite DropBuild_ok by done.
  unfold dropStatement, querybuilder.backtick, querybuilder.quote.
  destruct clusterName; by string_norm.
Qed.

(** C3. When the catalog has no table for the uuid ([GetTable] returns
    nil and no error), [DeleteTable] returns no error and leaves the
    connection as it was: nothing is executed. *)
Theorem DeleteTable_absent (c : Conn W) (uuid : string) (clusterName : option string) :
  GetTable (db c) uuid clusterName = Ok None →
  DeleteTable c uuid clusterName = (None, c).
Proof. intros Hget. unfold DeleteTable. by rewrite Hget. Qed.

(** C6. A descriptor query without rows makes [GetTable] return nil and
    no error; a name lookup without rows makes [FindTableByName] fail
    with its not-found error. *)
Theorem absent_by_uuid_and_by_name (w : W) (uuid databaseName tableName : string)
    (clusterName : option string) :
  (∀ sql,
     SelectBuild
       ["database"; "name"; "engine"; "partition_key"; "sorting_key";
        "primary_key"; "sampling_key"; "engine_full"; "comment"]
       "system.tables" clusterName [("uuid", uuid)] = Ok sql →
     Query w sql = Ok [] →
     GetTable w uuid clusterName = Ok None)
  ∧ (∀ sql,
       SelectBuild ["uuid"] "system.tables" clusterName
         [("database", databaseName); ("name", tableName)] = Ok sql →
       Query w sql = Ok [] →
       FindTableByName w databaseName tableName clusterName
       = Err (New "table with such name not found")).
Proof.
  split; intros sql Hsql Hrows.
  - unfold GetTable. rewrite Hsql. by rewrite Select_no_rows.
  - unfold FindTableByName. rewrite Hsql. by rewrite Select_no_rows.
Qed.

(** C10. When [GetTable] returns a table, [DeleteTable] hands exactly one
    statement to the client, the DROP TABLE of the database and table
    names of that catalog row (with the cluster clause of the call), and
    its result is the result of that statement; when the catalog read
    fails, the error is passed on and nothing is executed. A catalog row
    with an empty name is refused by the builder before anything is
    executed. *)
Theorem DeleteTable_drops_catalog_names (c : Conn W) (uuid : string)
    (clusterName : option string) :
  (∀ table,
     GetTable (db c) uuid clusterName = Ok (Some table) →
     (DatabaseName table ≠ "" ∧ Name table ≠ "" →
      let sql := dropStatement table clusterName in
      DeleteTable c uuid clusterName
      = (flip WithMessage "error running query" <$> (Exec (db c) sql).1,
         {| db := (Exec (db c) sql).2; executed := executed c ++ [sql] |}))
     ∧ (DatabaseName table = "" ∨ Name table = "" →
        ∃ e, DeleteTable c uuid clusterName
             = (Some (WithMessage e "error building query"), c)))
  ∧ (∀ e,
       GetTable (db c) uuid clusterName = Err e →
       DeleteTable c uuid clusterName = (Some (WithMessage e "error getting table"), c)).
Proof.
  split.
  - intros table Hget. unfold DeleteTable. rewrite Hget. split.
    + intros [Hd Hn]. rewrite DropBuild_table by done. cbn.
      unfold exec. by destruct (Exec _ _) as [[e|] w'].
    + intros Hempty.
      destruct (DropBuild_err
                  (querybuilder.DropWithCluster
                     (querybuilder.NewDropTable (DatabaseName table) (Name table))
                     clusterName)) as [e He]; [done|].
      rewrite He. eauto.
  - intros e Hget. unfold DeleteTable. by rewrite Hget.
Qed.

End dbops_facts.

Module dbops_witnesses.
Import clickhouseclient dbops Mock.

Lemma DeleteTable_absent_witness :
  GetTable (∅ : gmap string (list Row)) "u-1" None = Ok None
  ∧ DeleteTable (conn ∅) "u-1" None = (None, conn ∅).
Proof.
  split; [reflexivity|].
  apply (DeleteTable_absent (conn ∅) "u-1" None). reflexivity.
Defined.

Lemma absent_by_uuid_and_by_name_witness :
  GetTable (∅ : gmap string (list Row)) "u-1" (Some "c1") = Ok None
  ∧ FindTableByName (∅ : gmap string (list Row)) "db" "events" (Some "c1")
    = Err (New "table with such name not found").
Proof.
  destruct (absent_by_uuid_and_by_name
              (∅ : gmap string (list Row)) "u-1" "db" "events" (Some "c1"))
    as [Hget Hfind].
  split.
  - apply (Hget (tablesSql "u-1")); reflexivity.
  - apply (Hfind (nameSql "db" "events")); reflexivity.
Defined.

Lemma DeleteTable_drops_catalog_names_witness :
  let w := catalog "MergeTree" "MergeTree ORDER BY id" in
  DeleteTable (conn w) "u-1" (Some "c1")
  = (None, {| db := w; executed := ["DROP TABLE `db`.`events` ON CLUSTER 'c1';"] |})
  ∧ DeleteTable (conn ∅) "u-1" None = (None, conn ∅).
Proof.
  intros w. split; [|reflexivity].
  destruct (DeleteTable_drops_catalog_names (conn w) "u-1" (Some "c1")) as [Hsome _].
  destruct (GetTable w "u-1" (Some "c1")) as [[table|]|e] eqn:Hget;
    [|vm_compute in Hget; discriminate..].
  destruct (Hsome table Hget) as [Hdrop _].
  vm_compute in Hget. injection Hget as <-.
  rewrite Hdrop; [reflexivity|split; discriminate].
Defined.

End dbops_witnesses.

(** ** The column diff of [Update] *)
Section column_diff.
Import types table.

Lemma columnsByName_from (cols : list Column) (m : gmap string Column) (n : string) :
  foldl (λ m col, <[ValueString (Name col) := col]> m) m cols !! n = None
  ↔ m !! n = None ∧ n ∉ colName <$> cols.
Proof.
  revert m. induction cols as [|col cols IH]; intros m; cbn.
  - rewrite elem_of_nil. tauto.
  - rewrite IH, lookup_insert_None, elem_of_cons. unfold colName at 2.
    split; [intros [[??] ?]|intros [? Hn]]; repeat split; try done.
    + intros [?|?]; done.
    + intros ?. apply Hn. by left.
    + intros ?. apply Hn. by right.
Qed.

(** The index has a column for exactly the names of the list. *)
Lemma columnsByName_None (cols : list Column) (n : string) :
  columnsByName cols !! n = None ↔ n ∉ colName <$> cols.
Proof.
  unfold columnsByName. rewrite columnsByName_from, lookup_empty. tauto.
Qed.

Lemma columnsToAdd_filter (plan state : Table) :
  columnsToAdd plan state
  = toTableColumn <$>
      filter (λ col, colName col ∉ colName <$> Columns state) (Columns plan).
Proof.
  unfold columnsToAdd.
  enough (∀ cols acc,
    foldl (λ acc planCol,
             match columnsByName (Columns state) !! ValueString (Name planCol) with
             | None => acc ++ [toTableColumn planCol]
             | Some _ => acc
             end) acc cols
    = acc ++ (toTableColumn <$>
                filter (λ col, colName col ∉ colName <$> Columns state) cols))
    as Hgen by apply (Hgen _ []).
  induction cols as [|col cols IH]; intros acc; cbn.
  - by rewrite app_nil_r.
  - rewrite IH.
    destruct (columnsByName (Columns state) !! ValueString (Name col)) eqn:Hl.
    + rewrite decide_False; [done|].
      intros Hn%columnsByName_None. unfold colName in Hn. congruence.
    + rewrite decide_True by by apply columnsByName_None.
      by rewrite fmap_cons, <- app_assoc.
Qed.

Lemma columnsToRemove_filter (plan state : Table) :
  columnsToRemove plan state
  = filter (λ n, n ∉ colName <$> Columns plan) (colName <$> Columns state).
Proof.
  unfold columnsToRemove.
  enough (∀ cols acc,
    foldl (λ acc stateCol,
             let colName := ValueString (Name stateCol) in
             match columnsByName (Columns plan) !! colName with
             | None => acc ++ [colName]
             | Some _ => acc
             end) acc cols
    = acc ++ filter (λ n, n ∉ colName <$> Columns plan) (colName <$> cols))
    as Hgen by apply (Hgen _ []).
  induction cols as [|col cols IH]; intros acc; cbn.
  - by rewrite app_nil_r.
  - rewrite IH. fold (colName col).
    destruct (columnsByName (Columns plan) !! colName col) eqn:Hl.
    + rewrite decide_False; [done|].
      intros Hn%columnsByName_None. congruence.
    + rewrite decide_True by by apply columnsByName_None.
      by rewrite <- app_assoc.
Qed.

(** C5. With desired columns a and b and observed columns a and c (three
    different names, the columns in any order), [Update] computes exactly
    the column b to add, with the name, type, default and comment of the
    plan's b, and the name c to remove; a, which both have, is in
    neither. Only names are compared. *)
Theorem diff_of_ab_and_ac (plan state : Table) (ca cb ca' cc : Column) :
  Columns plan ≡ₚ [ca; cb] →
  Columns state ≡ₚ [ca'; cc] →
  colName ca' = colName ca →
  colName ca ≠ colName cb → colName ca ≠ colName cc → colName cb ≠ colName cc →
  columnsToAdd plan state
  = [{| querybuilder.Name := ValueString (Name cb);
        querybuilder.Type_ := ValueString (Type_ cb);
        querybuilder.Default := ValueStringPointer (Default cb);
        querybuilder.Comment := ValueStringPointer (Comment cb) |}]
  ∧ columnsToRemove plan state = [ValueString (Name cc)].
Proof.
  intros Hplan Hstate Ha Hab Hac Hbc. split.
  - change (columnsToAdd plan state = [toTableColumn cb]).
    rewrite columnsToAdd_filter. apply Permutation_singleton_r.
    rewrite Hplan.
    assert (∀ n, n ∈ colName <$> Columns state ↔ n = colName ca ∨ n = colName cc)
      as Hin.
    { intros n. rewrite Hstate. cbn. rewrite !elem_of_cons, elem_of_nil, Ha. tauto. }
    cbn.
    rewrite decide_False by (rewrite Hin; tauto).
    rewrite decide_True; [done|].
    rewrite Hin. intros [?|?]; congruence.
  - rewrite columnsToRemove_filter. apply Permutation_singleton_r.
    rewrite Hstate.
    assert (∀ n, n ∈ colName <$> Columns plan ↔ n = colName ca ∨ n = colName cb)
      as Hin.
    { intros n. rewrite Hplan. cbn. rewrite !elem_of_cons, elem_of_nil. tauto. }
    cbn.
    rewrite decide_False by (rewrite Hin, Ha; tauto).
    rewrite decide_True; [done|].
    rewrite Hin. intros [?|?]; congruence.
Qed.

End column_diff.

Module diff_witnesses.
Import types table Samples.

Lemma diff_of_ab_and_ac_witness :
  let plan :=
    tableWith [{| Name := StringValue "b"; Type_ := StringValue "String";
                  Default := StringValue "''"; Comment := StringNull |};
               column "a" "UInt64"] false in
  let state := tableWith [column "a" "UInt64"; column "c" "Date"] false in
  columnsToAdd plan state
  = [{| querybuilder.Name := "b"; querybuilder.Type_ := "String";
        querybuilder.Default := Some "''"; querybuilder.Comment := None |}]
  ∧ columnsToRemove plan state = ["c"].
Proof.
  intros plan state.
  apply (diff_of_ab_and_ac plan state
           (column "a" "UInt64")
           {| Name := StringValue "b"; Type_ := StringValue "String";
              Default := StringValue "''"; Comment := StringNull |}
           (column "a" "UInt64") (column "c" "Date")).
  - apply perm_swap.
  - reflexivity.
  - reflexivity.
  - discriminate.
  - discriminate.
  - discriminate.
Defined.

End diff_witnesses.

(** ** The resource: Update, ModifyPlan and the state it reports *)
Section resource_facts.
Import clickhouseclient types diag table.
Context {W : Type} `{!ClickhouseClient W} `{!dbops.SelectBuilder}.


End resource_facts.

(** ** ModifyPlan *)
Section modify_plan_facts.
Import types diag table.

(** The keys set in [orderBySet] are the names of the list. *)
Lemma orderBy_lookup (l : list string) (m : gmap string bool) (n : string) :
  default false (foldl (λ (m : gmap string bool) col, <[col := true]> m) m l !! n) = true
  ↔ default false (m !! n) = true ∨ n ∈ l.
Proof.
  revert m. induction l as [|x l IH]; intros m; cbn.
  - rewrite elem_of_nil. tauto.
  - rewrite IH, elem_of_cons. destruct (decide (x = n)) as [->|Hne].
    + rewrite lookup_insert_eq. cbn. tauto.
    + rewrite lookup_insert_ne by done. split.
      * intros [?|?]; tauto.
      * intros [?|[->|?]]; [tauto|done|tauto].
Qed.

Lemma orderBySet_spec (state : Table) (orderByColumns : list string) :
  ListElementsAs (OrderBy state) = Some orderByColumns →
  ∃ set, orderBySet state = Some set
         ∧ ∀ n, default false (set !! n) = true ↔ n ∈ orderByColumns.
Proof.
  intros Hl. unfold orderBySet.
  exists (foldl (λ (m : gmap string bool) col, <[col := true]> m) ∅ orderByColumns).
  split.
  - assert ((if ListIsNull (OrderBy state) then Some []
             else ListElementsAs (OrderBy state)) = Some orderByColumns) as ->; [|done].
    destruct (OrderBy state); cbn in *; congruence.
  - intros n. rewrite orderBy_lookup, lookup_empty. cbn. split; [|tauto].
    intros [?|?]; done.
Qed.




End modify_plan_facts.

Module resource_witnesses.
Import clickhouseclient types diag table Mock Samples.




End resource_witnesses.

(** ** Drift normalization of the engine *)
Section engine_facts.
Import clickhouseclient types table.
Context {W : Type} `{!ClickhouseClient W} `{!dbops.SelectBuilder}.

(** Every pair of the table is recognised in both directions. *)
Lemma cloudTransformations_both_ways (original shared : string) :
  cloudTransformations !! original = Some shared →
  isCloudEngineTransformation original shared = true
  ∧ isCloudEngineTransformation shared original = true.
Proof.
  revert original shared.
  change (map_Forall (λ original shared,
            isCloudEngineTransformation original shared = true
            ∧ isCloudEngineTransformation shared original = true)
          cloudTransformations).
  apply (bool_decide_unpack _). by vm_compute.
Qed.

(** A declared engine whose family is an alias of the observed family, in
    either direction, is kept as declared. *)
Lemma syncEngine_alias (plan : Table) (planned actual original shared : string) :
  Engine plan = StringValue planned →
  cloudTransformations !! original = Some shared →
  (normalizeEngineName planned = original ∧ normalizeEngineName actual = shared)
  ∨ (normalizeEngineName planned = shared ∧ normalizeEngineName actual = original) →
  syncEngine (Some plan) actual = StringValue planned.
Proof.
  intros Hplan [Hfwd Hback]%cloudTransformations_both_ways Hnames.
  unfold syncEngine. rewrite Hplan. cbn [StringIsNull ValueString].
  destruct Hnames as [[-> ->]|[-> ->]].
  - by rewrite Hfwd.
  - by rewrite Hback.
Qed.

Lemma syncPrimaryKey_ok (plan : Table) (actual : list string) :
  is_Some (ListElementsAs (PrimaryKey plan)) →
  ∃ l, syncPrimaryKey (Some plan) actual = Ok l.
Proof.
  intros [l Hl]. unfold syncPrimaryKey. rewrite Hl.
  destruct (ListIsNull (PrimaryKey plan)); cbn; case_decide; eauto.
Qed.

Lemma syncSettings_ok (plan : Table) (actual : gmap string string) :
  is_Some (MapElementsAs (Settings plan)) →
  ∃ m, syncSettings (Some plan) actual = Ok m.
Proof.
  intros [m Hm]. unfold syncSettings. rewrite Hm.
  destruct (MapIsNull (Settings plan)); eauto.
Qed.

(** C7. When the plan declares the engine "MergeTree()" and the catalog
    reports "SharedMergeTree", or the plan declares "SharedMergeTree" and
    the catalog reports "MergeTree", the state that [syncTableState]
    returns carries the declared engine string. The planned primary key
    and settings have to be readable for [syncTableState] to return a
    state at all. *)
Theorem syncTableState_keeps_declared_engine (w : W) (uuid : string)
    (clusterName : option string) (plan : Table) (observed : dbops.Table) :
  dbops.GetTable w uuid clusterName = Ok (Some observed) →
  is_Some (ListElementsAs (PrimaryKey plan)) →
  is_Some (MapElementsAs (Settings plan)) →
  (Engine plan = StringValue "MergeTree()" ∧ dbops.Engine observed = "SharedMergeTree")
  ∨ (Engine plan = StringValue "SharedMergeTree" ∧ dbops.Engine observed = "MergeTree") →
  ∃ state, syncTableState w uuid clusterName (Some plan) = Ok (Some state)
           ∧ Engine state = Engine plan.
Proof.
  intros Hget Hpk Hsettings Hengines. unfold syncTableState.
  rewrite Hget. cbn [withMessage mbind result_bind].
  destruct (syncPrimaryKey_ok plan (dbops.PrimaryKey observed) Hpk) as [pk ->].
  destruct (syncSettings_ok plan (dbops.Settings observed) Hsettings) as [m ->].
  cbn [mbind result_bind]. eexists. split; [reflexivity|].
  cbn [Engine].
  destruct Hengines as [[Hp Ho]|[Hp Ho]]; rewrite Ho, Hp.
  - by apply (syncEngine_alias plan "MergeTree()" "SharedMergeTree"
                "MergeTree" "SharedMergeTree"); [|vm_compute|left; vm_compute].
  - by apply (syncEngine_alias plan "SharedMergeTree" "MergeTree"
                "MergeTree" "SharedMergeTree"); [|vm_compute|right; vm_compute].
Qed.

End engine_facts.

Module engine_witnesses.
Import clickhouseclient types table Mock Samples.

Lemma syncTableState_keeps_declared_engine_witness :
  (∃ state,
     syncTableState (catalog "SharedMergeTree" "SharedMergeTree ORDER BY id") "u-1" None
       (Some (tableWith [column "id" "UInt64"] false)) = Ok (Some state)
     ∧ Engine state = StringValue "MergeTree()")
  ∧ (∃ state,
       syncTableState (catalog "MergeTree" "MergeTree ORDER BY id") "u-1" None
         (Some (withEngine (tableWith [column "id" "UInt64"] false) "SharedMergeTree"))
       = Ok (Some state)
       ∧ Engine state = StringValue "SharedMergeTree").
Proof.
  split.
  - destruct (dbops.GetTable (catalog "SharedMergeTree" "SharedMergeTree ORDER BY id")
                "u-1" None) as [[observed|]|e] eqn:Hget;
      [|vm_compute in Hget; discriminate..].
    apply (syncTableState_keeps_declared_engine _ "u-1" None
             (tableWith [column "id" "UInt64"] false) observed Hget).
    + by eexists.
    + by eexists.
    + left. split; [reflexivity|].
      vm_compute in Hget. by injection Hget as <-.
  - destruct (dbops.GetTable (catalog "MergeTree" "MergeTree ORDER BY id")
                "u-1" None) as [[observed|]|e] eqn:Hget;
      [|vm_compute in Hget; discriminate..].
    apply (syncTableState_keeps_declared_engine _ "u-1" None
             (withEngine (tableWith [column "id" "UInt64"] false) "SharedMergeTree")
             observed Hget).
    + by eexists.
    + by eexists.
    + right. split; [reflexivity|].
      vm_compute in Hget. by injection Hget as <-.
Defined.

End engine_witnesses.

(** ** The order of the settings in CREATE TABLE *)
Section settings_order.
Import querybuilder.

(** While the settings have at most one entry, every order of visiting
    them gives the same statement. *)
Lemma Build_one_setting (q : createTableQueryBuilder) (o1 o2 : list (string * string)) :
  size (settings q) ≤ 1 →
  rangeOrder (settings q) o1 → rangeOrder (settings q) o2 →
  Build q o1 = Build q o2.
Proof.
  unfold rangeOrder. intros Hsize H1 H2.
  assert (o1 ≡ₚ o2) as Hperm by by rewrite H1, H2.
  assert (length o1 ≤ 1) as Hlen.
  { rewrite H1, length_map_to_list. done. }
  destruct o1 as [|x [|y o1]]; [| |cbn in Hlen; lia].
  - by apply Permutation_nil_l in Hperm as ->.
  - by apply Permutation_singleton_l in Hperm as ->.
Qed.

(** C8. [Build] on the builder of the test "table with settings" (two
    settings): both enumerations of the map are orders that the [range]
    loop may take, and they give two different statements, so two calls
    on the same builder need not return the same text. The test expects
    the first of the two. *)
Theorem Build_settings_order_shows :
  let o1 := [("index_granularity", "16384"); ("merge_with_ttl_timeout", "86400")] in
  let o2 := [("merge_with_ttl_timeout", "86400"); ("index_granularity", "16384")] in
  rangeOrder (settings Samples.optimized) o1
  ∧ rangeOrder (settings Samples.optimized) o2
  ∧ Build Samples.optimized o1
    = Ok "CREATE TABLE `mydb`.`optimized` (`id` UInt64) ENGINE = MergeTree() ORDER BY (`id`) SETTINGS index_granularity = 16384, merge_with_ttl_timeout = 86400;"
  ∧ Build Samples.optimized o2
    = Ok "CREATE TABLE `mydb`.`optimized` (`id` UInt64) ENGINE = MergeTree() ORDER BY (`id`) SETTINGS merge_with_ttl_timeout = 86400, index_granularity = 16384;"
  ∧ Build Samples.optimized o1 ≠ Build Samples.optimized o2.
Proof.
  cbn zeta. unfold rangeOrder. repeat split.
  - apply (bool_decide_unpack _). by vm_compute.
  - apply (bool_decide_unpack _). by vm_compute.
  - by vm_compute.
Qed.

End settings_order.

(** ** The engine descriptor *)
Section engine_full.
Import Strings dbops EngineFullSpec.

Lemma firstOccurrence_Index (s token pre rest : string) :
  firstOccurrence s token pre rest →
  Index s token = Some (String.length pre)
  ∧ from (String.length pre + String.length token) s = rest.
Proof.
  intros [-> Hmin]. split.
  - apply Index_Some. split; [by exists pre, rest|done].
  - by rewrite <- slength_app, <- sapp_assoc, from_app.
Qed.

Lemma absent_Index (s token : string) : absent s token → Index s token = None.
Proof. intros Habs. by apply Index_None. Qed.

Lemma slice_middle (pre mid post : string) :
  slice (String.length pre) (String.length pre + String.length mid)
    (pre +:+ mid +:+ post) = mid.
Proof.
  unfold slice. rewrite <- slength_app, <- sapp_assoc, upto_app. apply from_app.
Qed.

(** Filling a map piece by piece, later pieces overwriting earlier ones,
    gives [settingsOf]. *)
Lemma settings_fold (pieces : list string) (m : gmap string string) :
  foldl (λ (settings : gmap string string) pair,
           match Split (TrimSpace pair) "=" with
           | [k; v] => <[TrimSpace k := TrimSpace v]> settings
           | _ => settings
           end) m pieces
  = list_to_map (reverse (omap keyValue pieces)) ∪ m.
Proof.
  revert m. induction pieces as [|piece pieces IH]; intros m.
  - cbn. by rewrite (left_id_L ∅ (∪)).
  - cbn [foldl]. rewrite IH.
    assert (omap keyValue (piece :: pieces)
            = match keyValue piece with
              | Some kv => kv :: omap keyValue pieces
              | None => omap keyValue pieces
              end) as -> by done.
    unfold keyValue.
    destruct (Split (TrimSpace piece) "=") as [|k [|v [|??]]]; try done.
    rewrite reverse_cons, list_to_map_app. cbn [list_to_map foldr].
    rewrite <- (assoc_L (∪)), <- insert_union_l.
    by rewrite (left_id_L ∅ (∪)).
Qed.

Lemma Index_firstOccurrence (s token : string) (i : nat) :
  Index s token = Some i →
  firstOccurrence s token (upto i s) (from (i + String.length token) s).
Proof.
  intros Hi. destruct (Index_split s token i Hi) as [Heq Hlen].
  split; [done|]. rewrite Hlen. by apply Index_Some.
Qed.

(** C9. The TTL is the trimmed text between the first "TTL " and the
    first " SETTINGS" after it, or the end of the descriptor when there
    is none; the settings are the pieces, between commas, of the text
    after the first "SETTINGS " that split on "=" into exactly a key and
    a value, both trimmed; a descriptor without "TTL " has the empty TTL
    and one without "SETTINGS " has no settings. *)
Theorem parseEngineFull_meets_spec (engineFull : string) :
  let ttl := (parseEngineFullForTTLAndSettings engineFull).1 in
  let settings := (parseEngineFullForTTLAndSettings engineFull).2 in
  (∀ pre rest,
     firstOccurrence engineFull "TTL " pre rest →
     (∀ body tail,
        firstOccurrence rest " SETTINGS" body tail → ttl = TrimSpace body)
     ∧ (absent rest " SETTINGS" → ttl = TrimSpace rest))
  ∧ (absent engineFull "TTL " → ttl = "")
  ∧ (∀ pre rest,
       firstOccurrence engineFull "SETTINGS " pre rest →
       settings = settingsOf (Split rest ","))
  ∧ (absent engineFull "SETTINGS " → settings = ∅).
Proof.
  cbn zeta. unfold parseEngineFullForTTLAndSettings. cbn [fst snd].
  split; [|split; [|split]].
  - intros pre rest Hocc.
    destruct (firstOccurrence_Index _ _ _ _ Hocc) as [-> Hrest].
    change (String.length "TTL ") with 4 in Hrest. rewrite Hrest.
    split.
    + intros body tail Hbody.
      destruct (firstOccurrence_Index _ _ _ _ Hbody) as [-> _].
      destruct Hocc as [-> _]. destruct Hbody as [-> _].
      f_equal. rewrite <- (sapp_assoc pre "TTL ").
      change 4 with (String.length "TTL ").
      rewrite <- slength_app. apply slice_middle.
    + intros Habs. by rewrite (absent_Index _ _ Habs).
  - intros Habs. by rewrite (absent_Index _ _ Habs).
  - intros pre rest Hocc.
    destruct (firstOccurrence_Index _ _ _ _ Hocc) as [-> Hrest].
    change (String.length "SETTINGS ") with 9 in Hrest. rewrite Hrest.
    rewrite settings_fold. unfold settingsOf. by rewrite (right_id_L ∅ (∪)).
  - intros Habs. by rewrite (absent_Index _ _ Habs).
Qed.

End engine_full.

Module engine_full_witnesses.
Import Strings dbops EngineFullSpec.

Lemma parseEngineFull_meets_spec_witness :
  let engineFull :=
    "MergeTree ORDER BY id TTL ts + toIntervalDay(30) SETTINGS index_granularity = 8192, a=b=c, ttl_only_drop_parts =1" in
  (parseEngineFullForTTLAndSettings engineFull).1 = "ts + toIntervalDay(30)"
  ∧ (parseEngineFullForTTLAndSettings engineFull).2
    = {[ "index_granularity" := "8192"; "ttl_only_drop_parts" := "1" ]}.
Proof.
  intros engineFull.
  destruct (parseEngineFull_meets_spec engineFull) as (Httl & _ & Hsettings & _).
  split.
  - destruct (Httl _ _ (Index_firstOccurrence engineFull "TTL " 22 eq_refl))
      as [Hbody _].
    rewrite (Hbody _ _ (Index_firstOccurrence
                          (from (22 + String.length "TTL ") engineFull)
                          " SETTINGS" 22 eq_refl)).
    reflexivity.
  - rewrite (Hsettings _ _ (Index_firstOccurrence engineFull "SETTINGS " 49 eq_refl)).
    apply (bool_decide_unpack _). vm_compute. exact I.
Defined.

End engine_full_witnesses.

(** * Further properties of the code *)

(** ** The DROP and ALTER builders *)
Section more_builders.
Import querybuilder Vocabulary.

(** X1. The DROP TABLE builder fails exactly for an empty database or
    table name; the two ALTER builders fail exactly for an empty database
    name, an empty table name or an empty list of columns. *)
Theorem drop_and_alter_builders_fail_iff
    (q : dropTableQueryBuilder) (a : AlterTableAddColumnQueryBuilder)
    (d : AlterTableDropColumnQueryBuilder) :
  (is_err (DropBuild q) = true ↔ drop_databaseName q = "" ∨ drop_tableName q = "")
  ∧ (is_err (AddBuild a) = true
     ↔ add_databaseName a = "" ∨ add_tableName a = "" ∨ add_columns a = [])
  ∧ (is_err (DropColBuild d) = true
     ↔ dropcol_databaseName d = "" ∨ dropcol_tableName d = ""
       ∨ dropcol_columnNames d = []).
Proof.
  split; [|split].
  - unfold DropBuild.
    destruct (decide (drop_databaseName q = "")); [cbn; tauto|].
    destruct (decide (drop_tableName q = "")); [cbn; tauto|].
    cbn. split; [done|tauto].
  - unfold AddBuild.
    destruct (decide (add_databaseName a = "")); [cbn; tauto|].
    destruct (decide (add_tableName a = "")); [cbn; tauto|].
    destruct (decide (length (add_columns a) = 0)) as [Hc|Hc].
    + apply length_zero_iff_nil in Hc. cbn. tauto.
    + cbn. split; [done|]. intros [?|[?|Hnil]]; try done.
      by rewrite Hnil in Hc.
  - unfold DropColBuild.
    destruct (decide (dropcol_databaseName d = "")); [cbn; tauto|].
    destruct (decide (dropcol_tableName d = "")); [cbn; tauto|].
    destruct (decide (length (dropcol_columnNames d) = 0)) as [Hc|Hc].
    + apply length_zero_iff_nil in Hc. cbn. tauto.
    + cbn. split; [done|]. intros [?|[?|Hnil]]; try done.
      by rewrite Hnil in Hc.
Qed.

Lemma alterCluster_blank (clusterName : option string) :
  alterCluster (blankAsAbsent clusterName) = alterCluster clusterName.
Proof.
  destruct clusterName as [c|]; [|done]. cbn.
  destruct (decide (c = "")) as [->|Hc]; [done|].
  cbn. by rewrite decide_False.
Qed.

Lemma addColumnText_blank (col : TableColumn) :
  addColumnText (blankColumn col) = addColumnText col.
Proof.
  unfold addColumnText, blankColumn. cbn [Name Type_ Default Comment].
  destruct (Default col) as [dflt|], (Comment col) as [cmt|]; cbn [blankAsAbsent];
    repeat (case_decide; subst; cbn [blankAsAbsent]);
    try done; by rewrite ?decide_False, ?decide_True by done.
Qed.

Lemma writeEach_ext {A B : Type} (sep : string) (f : A → string) (g : B → string)
    (h : A → B) (i : nat) (l : list A) :
  (∀ x, g (h x) = f x) → writeEach sep g i (h <$> l) = writeEach sep f i l.
Proof.
  intros Hfg. revert i. induction l as [|x l IH]; intros i; [done|].
  cbn [writeEach fmap list_fmap]. by rewrite Hfg, IH.
Qed.

(** X2. ALTER TABLE ADD COLUMN and DROP COLUMN do not tell an empty
    cluster name, default or comment from an absent one: the statement
    is the one built with each of them absent. (CREATE TABLE and DROP
    TABLE do write the clause for an empty text.) *)
Theorem alter_builders_take_blank_as_absent
    (databaseName tableName : string) (columns : list TableColumn)
    (columnNames : list string) (clusterName : option string) :
  AddBuild (AddWithCluster (NewAlterTableAddColumn databaseName tableName columns)
              clusterName)
  = AddBuild (AddWithCluster
                (NewAlterTableAddColumn databaseName tableName (blankColumn <$> columns))
                (blankAsAbsent clusterName))
  ∧ DropColBuild (DropColWithCluster
                    (NewAlterTableDropColumn databaseName tableName columnNames)
                    clusterName)
    = DropColBuild (DropColWithCluster
                      (NewAlterTableDropColumn databaseName tableName columnNames)
                      (blankAsAbsent clusterName)).
Proof.
  split.
  - unfold AddBuild. cbn [add_databaseName add_tableName add_columns add_clusterName
                          AddWithCluster NewAlterTableAddColumn].
    rewrite alterCluster_blank, length_fmap.
    by rewrite (writeEach_ext "," addColumnText addColumnText blankColumn)
      by apply addColumnText_blank.
  - unfold DropColBuild.
    cbn [dropcol_databaseName dropcol_tableName dropcol_columnNames
         dropcol_clusterName DropColWithCluster NewAlterTableDropColumn].
    by rewrite alterCluster_blank.
Qed.

End more_builders.

(** ** Splitting and the key columns *)
Section key_columns.
Import Strings dbops Vocabulary.

Lemma SplitN_not_nil (n : nat) (s sep : string) : SplitN n s sep ≠ [].
Proof. destruct n; cbn; [done|]. by destruct (Index s sep). Qed.

Lemma Join_cons (x : string) (l : list string) (sep : string) :
  l ≠ [] → Join (x :: l) sep = x +:+ sep +:+ Join l sep.
Proof. by destruct l. Qed.

(** Joining the pieces of a split gives the text back. *)
Lemma Join_SplitN (n : nat) (s sep : string) : Join (SplitN n s sep) sep = s.
Proof.
  revert s. induction n as [|n IH]; intros s; cbn [SplitN]; [done|].
  destruct (Index s sep) as [i|] eqn:Hi; [|done].
  rewrite Join_cons by apply SplitN_not_nil. rewrite IH.
  by destruct (Index_split s sep i Hi) as [<- _].
Qed.

Lemma absent_nil (sep : string) :
  sep ≠ "" → ∀ i, ¬ occursAt "" sep i.
Proof.
  intros Hsep i ([|??] & q & Heq & _); [|done].
  destruct sep; [done|]. cbn in Heq. done.
Qed.

(** In front of a one-byte separator, a text without that byte holds no
    earlier occurrence of it. *)
Lemma Index_before_sep (x r : string) (c : ascii) :
  (∀ i, ¬ occursAt x (String c "") i) →
  Index (x +:+ String c "" +:+ r) (String c "") = Some (String.length x).
Proof.
  intros Habs. apply Index_Some. split; [by exists x, r|].
  intros j Hj (p & q & Heq & Hlen). subst j.
  apply (Habs (String.length p)).
  clear Habs. revert p Heq Hj.
  induction x as [|a x IH]; intros p Heq Hj; [cbn in Hj; lia|].
  destruct p as [|b p].
  - cbn in Heq. injection Heq as -> _. by exists "", x.
  - cbn in Heq, Hj. injection Heq as -> Heq.
    apply occursAt_S, (IH p); [done|lia].
Qed.

(** Splitting a joined list of pieces that are free of the one-byte
    separator gives the pieces back. *)
Lemma SplitN_Join (l : list string) (c : ascii) (n : nat) :
  l ≠ [] →
  Forall (λ x, ∀ i, ¬ occursAt x (String c "") i) l →
  String.length (Join l (String c "")) ≤ n →
  SplitN n (Join l (String c "")) (String c "") = l.
Proof.
  intros Hne Hfree. revert n.
  induction Hfree as [|x l Hx Hl IH]; intros n Hn; [done|].
  destruct l as [|y l].
  - cbn [Join]. destruct n as [|n]; cbn [SplitN]; [done|].
    by rewrite (proj2 (Index_None x (String c "")) Hx).
  - rewrite Join_cons in Hn |- * by done.
    rewrite !slength_app in Hn. cbn [String.length] in Hn.
    destruct n as [|n]; [lia|]. cbn [SplitN].
    rewrite Index_before_sep by done.
    rewrite upto_app. f_equal.
    change (String.length x + String.length (String c ""))
      with (String.length x + 1).
    replace (String.length x + 1) with (String.length (x +:+ String c ""))
      by (rewrite slength_app; cbn; lia).
    rewrite <- sapp_assoc, from_app.
    apply IH; [done|lia].
Qed.

(** What [parseKeyColumns] returns: the trimmed pieces between commas,
    without the empty ones. *)
Lemma parseKeyColumns_filter (key : string) :
  parseKeyColumns key = filter (λ x, x ≠ "") (TrimSpace <$> Split key ",").
Proof.
  unfold parseKeyColumns. destruct (decide (key = "")) as [->|_]; [done|].
  enough (∀ pieces acc,
    foldl (λ result part,
             let trimmed := TrimSpace part in
             if decide (trimmed = "") then result else result ++ [trimmed])
          acc pieces
    = acc ++ filter (λ x, x ≠ "") (TrimSpace <$> pieces)) as Hgen
    by apply (Hgen _ []).
  induction pieces as [|piece pieces IH]; intros acc; cbn.
  - by rewrite app_nil_r.
  - rewrite IH. destruct (decide (TrimSpace piece = "")) as [Hp|Hp].
    + by rewrite decide_False by naive_solver.
    + rewrite decide_True by done. by rewrite <- app_assoc.
Qed.

(** X3. The columns that [parseKeyColumns] returns are never empty, and
    the key text that lists column names with ", " between them is read
    back as exactly those names. *)
Theorem parseKeyColumns_names (key : string) (names : list string) :
  Forall (λ x, x ≠ "") (parseKeyColumns key)
  ∧ (Forall keyName names → parseKeyColumns (Join names ", ") = names).
Proof.
  split.
  - rewrite parseKeyColumns_filter. apply Forall_forall.
    by intros x [Hx _]%list_elem_of_filter.
  - intros Hnames. rewrite parseKeyColumns_filter.
    destruct names as [|name names]; [done|].
    assert (Join (name :: names) ", "
            = Join (name :: (String " " <$> names)) ",") as ->.
    { clear Hnames. revert name.
      induction names as [|y names IH]; intros name; [done|].
      rewrite fmap_cons, (Join_cons name (y :: names)) by done.
      rewrite (Join_cons name (String " " y :: _)) by done.
      rewrite <- (IH (String " " y)).
      by destruct names. }
    unfold Split. rewrite SplitN_Join; [|done| |done].
    + rewrite fmap_cons, <- list_fmap_compose.
      apply Forall_cons in Hnames as [(Hne & Htrim & _) Hnames].
      rewrite Htrim, filter_cons_True by done. f_equal.
      induction Hnames as [|y names (Hy & Hty & _) _ IH]; [done|].
      rewrite fmap_cons.
      assert ((TrimSpace ∘ String " ") y = y) as -> by exact Hty.
      rewrite filter_cons_True by done. by f_equal.
    + apply Forall_cons in Hnames as [(_ & _ & Hfree) Hnames].
      apply Forall_cons. split; [done|].
      apply Forall_fmap. eapply Forall_impl; [exact Hnames|].
      intros y (_ & _ & Hy) [|i] Hocc.
      * apply occursAt_0 in Hocc. done.
      * apply occursAt_S in Hocc. by eapply Hy.
Qed.

End key_columns.

Module key_columns_witnesses.
Import Strings dbops Vocabulary.

Lemma no_comma (s : string) : Index s "," = None → ∀ i, ¬ occursAt s "," i.
Proof. apply Index_None. Qed.

Lemma parseKeyColumns_names_witness :
  parseKeyColumns "user_id, activity_date, timestamp"
  = ["user_id"; "activity_date"; "timestamp"].
Proof.
  apply (parseKeyColumns_names "" ["user_id"; "activity_date"; "timestamp"]).
  repeat apply Forall_cons_2; [..|apply Forall_nil_2];
    (split; [discriminate|split; [reflexivity|by apply no_comma]]).
Defined.

End key_columns_witnesses.

(** ** More on the catalog reader *)
Section more_dbops.
Import clickhouseclient dbops Vocabulary.
Context {W : Type} `{!ClickhouseClient W} `{!SelectBuilder}.

(** What holds of the callback's variables before the rows and is kept by
    every row that is read without error, holds after [Select]. *)
Lemma forRows_invariant {S : Type} (inv : S → Prop)
    (callback : Row → S → option error * S) (rows : list Row) (st st' : S) :
  (∀ data s s', inv s → callback data s = (None, s') → inv s') →
  inv st → forRows callback rows st = (None, st') → inv st'.
Proof.
  intros Hstep. revert st.
  induction rows as [|data rows IH]; intros st Hst; cbn.
  - by intros [= <-].
  - destruct (callback data st) as [[e|] s] eqn:Hcb; [done|].
    apply IH. by eapply Hstep.
Qed.

Lemma Select_invariant {S : Type} (inv : S → Prop) (w : W) (sql : string)
    (callback : Row → S → option error * S) (st st' : S) :
  (∀ data s s', inv s → callback data s = (None, s') → inv s') →
  inv st → Select w sql callback st = (None, st') → inv st'.
Proof.
  intros Hstep Hst. unfold Select.
  destruct (Query w sql) as [rows|e]; [|done].
  by apply forRows_invariant.
Qed.

Lemma parseKeyColumns_nonempty (key : string) :
  Forall (λ x, x ≠ "") (parseKeyColumns key).
Proof.
  rewrite parseKeyColumns_filter. apply Forall_forall.
  by intros x [Hx _]%list_elem_of_filter.
Qed.

Lemma tableRow_shape (uuid : string) (data : Row) (table : option Table) (t : Table) :
  tableRow uuid data table = (None, Some t) → observedShape uuid t.
Proof.
  unfold tableRow.
  destruct (withMessage (GetString data "database") _) as [dbName|]; [|done].
  destruct (withMessage (GetString data "name") _) as [name|]; [|done].
  destruct (withMessage (GetString data "engine") _) as [engine|]; [|done].
  destruct (withMessage (GetString data "partition_key") _) as [partitionKey|]; [|done].
  destruct (withMessage (GetString data "sorting_key") _) as [sortingKey|]; [|done].
  destruct (withMessage (GetString data "primary_key") _) as [primaryKey|]; [|done].
  destruct (withMessage (GetString data "sampling_key") _) as [samplingKey|]; [|done].
  destruct (withMessage (GetString data "engine_full") _) as [engineFull|]; [|done].
  destruct (withMessage (GetString data "comment") _) as [comment|]; [|done].
  cbn [mbind result_bind mret result_ret].
  destruct (parseEngineFullForTTLAndSettings engineFull) as [ttl settings].
  intros [= <-]. unfold observedShape. cbn [UUID PartitionBy SampleBy TTL OrderBy PrimaryKey].
  repeat split.
  - case_decide; congruence.
  - case_decide; congruence.
  - case_decide; congruence.
  - case_decide; [done|apply parseKeyColumns_nonempty].
  - case_decide; [done|apply parseKeyColumns_nonempty].
Qed.

Lemma columnRow_shape (data : Row) (cols cols' : list querybuilder.TableColumn) :
  Forall (λ col, blankColumn col = col) cols →
  columnRow data cols = (None, cols') →
  Forall (λ col, blankColumn col = col) cols'.
Proof.
  intros Hcols. unfold columnRow.
  destruct (withMessage (GetString data "name") _) as [name|]; [|done].
  destruct (withMessage (GetString data "type") _) as [colType|]; [|done].
  destruct (withMessage (GetString data "default_expression") _) as [dflt|]; [|done].
  destruct (withMessage (GetString data "comment") _) as [cmt|]; [|done].
  cbn [mbind result_bind mret result_ret]. intros [= <-].
  apply Forall_app. split; [done|]. apply Forall_singleton.
  unfold blankColumn, blankAsAbsent. cbn.
  by repeat (case_decide; cbn; rewrite ?decide_False by done).
Qed.

(** X4. A table that [GetTable] returns carries the uuid that was asked
    for, and nothing in it is present but empty: partition, sampling and
    TTL expressions, the names of the sorting and primary key, and the
    default and comment of every column are absent rather than empty. *)
Theorem GetTable_observed_shape (w : W) (uuid : string) (clusterName : option string)
    (t : Table) :
  GetTable w uuid clusterName = Ok (Some t) →
  observedShape uuid t
  ∧ Forall (λ col, querybuilder.Default col ≠ Some ""
                   ∧ querybuilder.Comment col ≠ Some "") (Columns t).
Proof.
  unfold GetTable.
  destruct (SelectBuild _ "system.tables" _ _) as [sql|]; [|done].
  destruct (Select w sql (tableRow uuid) None) as [[e|] [table|]] eqn:Hsel; try done.
  assert (observedShape uuid table) as Hshape.
  { apply (Select_invariant (λ o, ∀ t0, o = Some t0 → observedShape uuid t0)
             w sql (tableRow uuid) None (Some table)); [|done|done|done].
    intros data s [s'|] _ Hrow t0 [= <-]. by eapply tableRow_shape. }
  destruct (SelectBuild _ "system.columns" _ _) as [columnsSql|]; [|done].
  destruct (Select w columnsSql columnRow []) as [[e|] cols] eqn:Hcols; [done|].
  intros [= <-]. split.
  - destruct Hshape as (? & ? & ? & ? & ? & ?). by repeat split.
  - cbn [Columns withColumns].
    eapply Forall_impl.
    + apply (Select_invariant (Forall (λ col, blankColumn col = col))
               w columnsSql columnRow [] cols); [|done|done].
      intros data s s' Hs Hrow. by eapply columnRow_shape.
    + intros col Hcol. rewrite <- Hcol. unfold blankColumn, blankAsAbsent.
      cbn [querybuilder.Default querybuilder.Comment].
      split.
      * destruct (querybuilder.Default col) as [x|]; [|done].
        case_decide; congruence.
      * destruct (querybuilder.Comment col) as [x|]; [|done].
        case_decide; congruence.
Qed.

Lemma forRows_uuidRow (rows : list Row) (uuid0 : string) :
  Forall (λ data : Row, is_Some (data !! "uuid")) rows →
  forRows uuidRow rows uuid0
  = (None, default uuid0 (last rows ≫= (.!! "uuid"))).
Proof.
  revert uuid0. induction rows as [|data rows IH]; intros uuid0 Hrows; [done|].
  apply Forall_cons in Hrows as [[u Hu] Hrows].
  cbn [forRows]. unfold uuidRow at 1, GetString. rewrite Hu, IH by done.
  destruct rows as [|data' rows]; [cbn; by rewrite Hu|].
  change (last (data :: data' :: rows)) with (last (data' :: rows)).
  assert (is_Some (last (data' :: rows) ≫= (.!! "uuid"))) as [u' ->]; [|done].
  destruct (last (data' :: rows)) as [d|] eqn:Hlast.
  - apply last_Some_elem_of in Hlast.
    by apply (proj1 (Forall_forall _ _) Hrows) in Hlast.
  - by apply last_None in Hlast.
Qed.

(** X5. When the name lookup returns rows that all have a uuid,
    [FindTableByName] reads the table of the uuid of the last row; when
    that uuid is empty it reports that no such table was found. *)
Theorem FindTableByName_reads_last_uuid (w : W) (databaseName tableName : string)
    (clusterName : option string) (sql : string) (rows : list Row) (data : Row)
    (uuid : string) :
  SelectBuild ["uuid"] "system.tables" clusterName
    [("database", databaseName); ("name", tableName)] = Ok sql →
  Query w sql = Ok rows →
  Forall (λ data : Row, is_Some (data !! "uuid")) rows →
  last rows = Some data →
  data !! "uuid" = Some uuid →
  FindTableByName w databaseName tableName clusterName
  = if decide (uuid = "") then Err (New "table with such name not found")
    else GetTable w uuid clusterName.
Proof.
  intros Hsql Hrows Hall Hlast Huuid. unfold FindTableByName, Select.
  rewrite Hsql, Hrows, forRows_uuidRow by done.
  rewrite Hlast. cbn. by rewrite Huuid.
Qed.

End more_dbops.

Module more_dbops_witnesses.
Import clickhouseclient dbops Mock Vocabulary.

Lemma GetTable_observed_shape_witness :
  ∃ t, GetTable (catalog "MergeTree" "MergeTree ORDER BY id") "u-1" None = Ok (Some t)
       ∧ UUID t = "u-1" ∧ PartitionBy t = None
       ∧ Forall (λ col, querybuilder.Default col ≠ Some ""
                        ∧ querybuilder.Comment col ≠ Some "") (Columns t).
Proof.
  destruct (GetTable (catalog "MergeTree" "MergeTree ORDER BY id") "u-1" None)
    as [[t|]|e] eqn:Hget; [|vm_compute in Hget; discriminate..].
  exists t. split; [done|].
  destruct (GetTable_observed_shape _ "u-1" None t Hget) as [(Hu & _) Hcols].
  repeat split; [done| |done].
  vm_compute in Hget. by injection Hget as <-.
Defined.

Lemma FindTableByName_reads_last_uuid_witness :
  let w := catalog "MergeTree" "MergeTree ORDER BY id" in
  FindTableByName w "db" "events" None = GetTable w "u-1" None.
Proof.
  intros w.
  apply (FindTableByName_reads_last_uuid w "db" "events" None
           (nameSql "db" "events") [{[ "uuid" := "u-1" ]}] {[ "uuid" := "u-1" ]} "u-1").
  - reflexivity.
  - reflexivity.
  - apply Forall_singleton. by exists "u-1".
  - reflexivity.
  - reflexivity.
Defined.

End more_dbops_witnesses.

(** ** Creating a table *)
Section create_table.
Import clickhouseclient dbops.
Context {W : Type} `{!ClickhouseClient W} `{!SelectBuilder}.

Lemma createBuilder_fields (t : Table) (clusterName : option string) :
  let q := createBuilder t clusterName in
  querybuilder.databaseName q = DatabaseName t
  ∧ querybuilder.tableName q = Name t
  ∧ querybuilder.columns q = Columns t
  ∧ querybuilder.engine q = Engine t
  ∧ querybuilder.comment q = Some (Comment t).
Proof.
  unfold createBuilder.
  destruct (PartitionBy t), (decide (0 < length (PrimaryKey t))), (SampleBy t),
    (TTL t), (decide (0 < size (Settings t))); done.
Qed.

(** The text of a CREATE TABLE statement: how it starts and ends. *)
Lemma Build_text (q : querybuilder.createTableQueryBuilder)
    (visited : list (string * string)) (sql : string) :
  querybuilder.Build q visited = Ok sql →
  ∃ middle,
    sql = "CREATE TABLE `" +:+ querybuilder.databaseName q +:+ "`.`"
          +:+ querybuilder.tableName q +:+ "`" +:+ middle
          +:+ match querybuilder.comment q with
              | Some c => " COMMENT '" +:+ c +:+ "'"
              | None => ""
              end
          +:+ ";".
Proof.
  unfold querybuilder.Build.
  repeat (case_decide; [done|]). intros [= <-].
  exists (match querybuilder.clusterName q with
          | Some c => " ON CLUSTER " +:+ querybuilder.quote c
          | None => ""
          end
          +:+ " (" +:+ querybuilder.writeEach ", " querybuilder.columnText 0
                         (querybuilder.columns q) +:+ ")"
          +:+ " ENGINE = " +:+ querybuilder.engine q
          +:+ (if decide (0 < length (querybuilder.orderBy q))
               then " ORDER BY (" +:+ querybuilder.writeEach ", " querybuilder.backtick 0
                                        (querybuilder.orderBy q) +:+ ")"
               else "")
          +:+ match querybuilder.partitionBy q with
              | Some p => " PARTITION BY " +:+ p
              | None => ""
              end
          +:+ (if decide (0 < length (querybuilder.primaryKey q))
               then " PRIMARY KEY (" +:+ querybuilder.writeEach ", " querybuilder.backtick 0
                                           (querybuilder.primaryKey q) +:+ ")"
               else "")
          +:+ match querybuilder.sampleBy q with
              | Some e => " SAMPLE BY " +:+ e
              | None => ""
              end
          +:+ match querybuilder.ttl q with
              | Some e => " TTL " +:+ e
              | None => ""
              end
          +:+ (if decide (0 < size (querybuilder.settings q))
               then " SETTINGS " +:+ querybuilder.writeEach ", " querybuilder.settingText 0
                                       visited
               else "")).
  unfold querybuilder.backtick, querybuilder.quote.
  destruct (querybuilder.comment q); by string_norm.
Qed.

(** X6. [CreateTable] refuses a table whose database name, table name or
    engine is empty or that has no column, before anything is executed.
    Otherwise it hands exactly one statement to the client: a CREATE TABLE
    of that database and table which always ends in a COMMENT clause, also
    for the empty comment. *)
Theorem CreateTable_statement (c : Conn W) (t : Table) (clusterName : option string)
    (visited : list (string * string)) :
  (DatabaseName t = "" ∨ Name t = "" ∨ Engine t = "" ∨ Columns t = [] →
   ∃ e, CreateTable c t clusterName visited
        = (Err (WithMessage e "error building query"), c))
  ∧ (DatabaseName t ≠ "" ∧ Name t ≠ "" ∧ Engine t ≠ "" ∧ Columns t ≠ [] →
     ∃ middle,
       executed (CreateTable c t clusterName visited).2
       = executed c
         ++ ["CREATE TABLE `" +:+ DatabaseName t +:+ "`.`" +:+ Name t +:+ "`"
             +:+ middle +:+ " COMMENT '" +:+ Comment t +:+ "';"]).
Proof.
  destruct (createBuilder_fields t clusterName) as (Hd & Hn & Hc & He & Hcomment).
  unfold CreateTable. split.
  - intros Hempty. unfold querybuilder.Build. rewrite Hd, Hn, Hc, He.
    destruct (decide (DatabaseName t = "")); [eauto|].
    destruct (decide (Name t = "")); [eauto|].
    destruct (decide (length (Columns t) = 0)) as [|Hlen]; [eauto|].
    destruct (decide (Engine t = "")); [eauto|].
    destruct Hempty as [?|[?|[?|Hnil]]]; try done.
    by rewrite Hnil in Hlen.
  - intros (Hdn & Hnn & Hen & Hcn).
    destruct (querybuilder.Build (createBuilder t clusterName) visited)
      as [sql|e] eqn:Hbuild.
    + destruct (Build_text _ _ _ Hbuild) as [middle ->].
      rewrite Hd, Hn, Hcomment. exists middle.
      unfold exec. destruct (Exec _ _) as [[e|] w']; cbn [snd executed].
      * f_equal. f_equal. by string_norm.
      * f_equal. f_equal. by string_norm.
    + exfalso. unfold querybuilder.Build in Hbuild.
      rewrite Hd, Hn, Hc, He in Hbuild.
      rewrite !decide_False in Hbuild; try done.
      by destruct (Columns t).
Qed.

End create_table.

Module create_table_witnesses.
Import clickhouseclient dbops Mock.

Lemma CreateTable_statement_witness :
  executed (CreateTable (conn (catalog "MergeTree" "MergeTree ORDER BY id"))
              Samples.events None []).2
  = ["CREATE TABLE `db`.`events` (`id` UInt64, `ts` DateTime) ENGINE = MergeTree() ORDER BY (`id`) COMMENT '';"]
  ∧ ∃ e, CreateTable (conn ∅) (Build_Table "" "" "events" "MergeTree()"
                                 [] [] None [] None None ∅ "") None []
         = (Err (WithMessage e "error building query"), conn ∅).
Proof.
  split; [by vm_compute|].
  apply (CreateTable_statement (conn ∅)
           (Build_Table "" "" "events" "MergeTree()" [] [] None [] None None ∅ "")
           None []).
  by left.
Defined.

End create_table_witnesses.

(** ** More on Update, Delete and Read *)
Section more_resource.
Import clickhouseclient types diag table Vocabulary.
Context {W : Type} `{!ClickhouseClient W} `{!dbops.SelectBuilder}.

Lemma DropColBuild_text (databaseName tableName : string) (columnNames : list string)
    (clusterName : option string) :
  databaseName ≠ "" → tableName ≠ "" → columnNames ≠ [] →
  querybuilder.DropColBuild
    (querybuilder.DropColWithCluster
       (querybuilder.NewAlterTableDropColumn databaseName tableName columnNames)
       clusterName)
  = Ok (alterDropSql databaseName tableName columnNames clusterName).
Proof.
  intros Hd Ht Hc. unfold querybuilder.DropColBuild.
  cbn [querybuilder.dropcol_databaseName querybuilder.dropcol_tableName
       querybuilder.dropcol_columnNames querybuilder.dropcol_clusterName
       querybuilder.DropColWithCluster querybuilder.NewAlterTableDropColumn].
  rewrite decide_False by done. rewrite decide_False by done.
  rewrite decide_False by by destruct columnNames.
  reflexivity.
Qed.

Lemma AddBuild_text (databaseName tableName : string)
    (columns : list querybuilder.TableColumn) (clusterName : option string) :
  databaseName ≠ "" → tableName ≠ "" → columns ≠ [] →
  querybuilder.AddBuild
    (querybuilder.AddWithCluster
       (querybuilder.NewAlterTableAddColumn databaseName tableName columns)
       clusterName)
  = Ok (alterAddSql databaseName tableName columns clusterName).
Proof.
  intros Hd Ht Hc. unfold querybuilder.AddBuild.
  cbn [querybuilder.add_databaseName querybuilder.add_tableName
       querybuilder.add_columns querybuilder.add_clusterName
       querybuilder.AddWithCluster querybuilder.NewAlterTableAddColumn].
  rewrite decide_False by done. rewrite decide_False by done.
  rewrite decide_False by by destruct columns.
  reflexivity.
Qed.

Lemma filter_none {A : Type} (P : A → Prop) `{!∀ x, Decision (P x)} (l : list A) :
  Forall (λ x, ¬ P x) l → filter P l = [].
Proof.
  induction 1 as [|x l Hx _ IH]; [done|]. by rewrite filter_cons_False.
Qed.

Lemma Update_start (plan state : Table) (resp : UpdateResponse) (c : dbops.Conn W) :
  HasError (upd_Diagnostics resp) = false →
  Update {| upd_Plan := Some plan; upd_State := Some state |} resp c
  = if decide (0 < length (columnsToRemove plan state)) then
      if negb (ValueBool (AllowDrops plan)) then
        (updAddError resp "Column removal not allowed"
           (Text ("Cannot remove columns " +:+ fmtStrings (columnsToRemove plan state)
                  +:+ " because 'allow_drops' is set to false. To allow column removal, set 'allow_drops = true' in your table configuration.")),
         c)
      else
        match dbops.DropTableColumns c (ValueString (DatabaseName state))
                (ValueString (TableName state)) (columnsToRemove plan state)
                (ValueStringPointer (ClusterName state)) with
        | (Some err, c) =>
            (updAddError resp "Error removing columns from table"
               (Dump "Failed to remove columns: " err "
"), c)
        | (None, c) => updateAddAndSync plan state resp c
        end
    else updateAddAndSync plan state resp c.
Proof.
  intros Hok. unfold Update. cbn [Get upd_Plan upd_State].
  assert (updAppend (updAppend resp []) [] = resp) as ->.
  { unfold updAppend. cbn. rewrite !app_nil_r. by destruct resp. }
  by rewrite Hok.
Qed.

(** X7. When the plan and the state have the same column names (whatever
    their types, defaults and comments), [Update] executes no statement:
    it only reads the table again and stores what it read, or reports the
    error of that read. *)
Theorem Update_same_names (plan state : Table) (resp : UpdateResponse)
    (c : dbops.Conn W) :
  HasError (upd_Diagnostics resp) = false →
  (∀ n, n ∈ colName <$> Columns plan ↔ n ∈ colName <$> Columns state) →
  Update {| upd_Plan := Some plan; upd_State := Some state |} resp c
  = (match syncTableState (dbops.db c) (ValueString (UUID state))
             (ValueStringPointer (ClusterName state)) (Some plan) with
     | Err err => updAddError resp "Error syncing table state" (Dump "" err "
")
     | Ok updatedState => updSetState resp updatedState
     end, c).
Proof.
  intros Hok Hsame. rewrite Update_start by done.
  assert (columnsToRemove plan state = []) as Hrem.
  { rewrite columnsToRemove_filter. apply filter_none, Forall_forall.
    intros n Hn Hgone. by apply Hgone, Hsame. }
  assert (columnsToAdd plan state = []) as Hadd.
  { rewrite columnsToAdd_filter, filter_none; [done|]. apply Forall_forall.
    intros col Hcol Hn. apply Hn, Hsame. by apply list_elem_of_fmap_2. }
  rewrite Hrem. cbn [length]. rewrite decide_False by lia.
  unfold updateAddAndSync. rewrite Hadd. cbn [length].
  rewrite decide_False by lia.
  by destruct (syncTableState _ _ _ _).
Qed.

(** X8. When allow_drops is true and there are columns to remove and to
    add, [Update] first executes the DROP COLUMN statement and, only
    when it succeeded, the ADD COLUMN statement, both on the table named
    in the state; when the DROP fails, its error is reported and nothing
    else is executed. *)
Theorem Update_drops_then_adds (plan state : Table) (resp : UpdateResponse)
    (c : dbops.Conn W) :
  HasError (upd_Diagnostics resp) = false →
  ValueBool (AllowDrops plan) = true →
  ValueString (DatabaseName state) ≠ "" → ValueString (TableName state) ≠ "" →
  columnsToRemove plan state ≠ [] → columnsToAdd plan state ≠ [] →
  let dropSql :=
    alterDropSql (ValueString (DatabaseName state)) (ValueString (TableName state))
      (columnsToRemove plan state) (ValueStringPointer (ClusterName state)) in
  let addSql :=
    alterAddSql (ValueString (DatabaseName state)) (ValueString (TableName state))
      (columnsToAdd plan state) (ValueStringPointer (ClusterName state)) in
  let after := Update {| upd_Plan := Some plan; upd_State := Some state |} resp c in
  match Exec (dbops.db c) dropSql with
  | (Some err, w1) =>
      after
      = (updAddError resp "Error removing columns from table"
           (Dump "Failed to remove columns: "
              (WithMessage err "error dropping columns from table") "
"),
         {| dbops.db := w1; dbops.executed := dbops.executed c ++ [dropSql] |})
  | (None, w1) =>
      dbops.executed after.2 = dbops.executed c ++ [dropSql; addSql]
      ∧ dbops.db after.2 = (Exec w1 addSql).2
  end.
Proof.
  intros Hok Hallow Hd Ht Hrem Hadd dropSql addSql after. subst after.
  rewrite Update_start by done.
  rewrite decide_True by (destruct (columnsToRemove plan state); [done|cbn; lia]).
  rewrite Hallow. cbn [negb]. unfold dbops.DropTableColumns.
  rewrite DropColBuild_text by done. fold dropSql. unfold dbops.exec.
  destruct (Exec (dbops.db c) dropSql) as [[err|] w1]; [done|].
  cbv beta iota zeta. unfold updateAddAndSync.
  rewrite decide_True by (destruct (columnsToAdd plan state); [done|cbn; lia]).
  unfold dbops.AddTableColumns. rewrite AddBuild_text by done. fold addSql.
  unfold dbops.exec. cbn [dbops.db dbops.executed].
  destruct (Exec w1 addSql) as [[err|] w2]; cbv beta iota zeta.
  - cbn [snd dbops.executed dbops.db]. by rewrite <- app_assoc.
  - destruct (syncTableState _ _ _ _); cbn [snd dbops.executed dbops.db];
      by rewrite <- app_assoc.
Qed.

(** X9. [Delete] with allow_drops not true reports the error "Table
    deletion not allowed", naming the table, and executes nothing; with
    allow_drops true and no table under the uuid in the catalog it
    reports nothing and executes nothing. *)
Theorem Delete_guard (st : Table) (resp : DeleteResponse) (c : dbops.Conn W) :
  HasError (del_Diagnostics resp) = false →
  (ValueBool (AllowDrops st) = false →
   Delete (Some st) resp c
   = ({| del_Diagnostics :=
           del_Diagnostics resp ++
           [{| severity := SeverityError;
               summary := "Table deletion not allowed";
               detail :=
                 Text ("Cannot delete table '" +:+ ValueString (TableName st)
                       +:+ "' because 'allow_drops' is set to false. To allow table deletion, set 'allow_drops = true' in your table configuration.") |}] |},
      c))
  ∧ (ValueBool (AllowDrops st) = true →
     dbops.GetTable (dbops.db c) (ValueString (UUID st))
       (ValueStringPointer (ClusterName st)) = Ok None →
     Delete (Some st) resp c = (resp, c)).
Proof.
  intros Hok. unfold Delete. cbn [Get]. rewrite app_nil_r, Hok. split.
  - intros ->. done.
  - intros -> Hget. cbn [negb]. unfold dbops.DeleteTable. rewrite Hget.
    by destruct resp.
Qed.

(** X10. [Read] on a state with no earlier error removes the resource
    exactly when the catalog has no table under the uuid of the state.
    When reading the table fails, the prior state is left in place and
    the error "Error syncing table" is added; when a table is read, the
    state is the one read and nothing is added. *)
Theorem Read_removes_iff_absent (st prior : Table) (resp : ReadResponse) (w : W) :
  HasError (read_Diagnostics resp) = false →
  read_State resp = Some prior →
  let after := Read (Some st) resp w in
  let uuid := ValueString (UUID st) in
  let clusterName := ValueStringPointer (ClusterName st) in
  (read_State after = None ↔ dbops.GetTable w uuid clusterName = Ok None)
  ∧ (∀ err,
       syncTableState w uuid clusterName (Some st) = Err err →
       after
       = {| read_State := Some prior;
            read_Diagnostics :=
              read_Diagnostics resp ++
              [{| severity := SeverityError; summary := "Error syncing table";
                  detail := Dump "" err "
" |}] |})
  ∧ (∀ e,
       dbops.GetTable w uuid clusterName = Err e →
       after
       = {| read_State := Some prior;
            read_Diagnostics :=
              read_Diagnostics resp ++
              [{| severity := SeverityError; summary := "Error syncing table";
                  detail := Dump "" (WithMessage e "cannot get table") "
" |}] |})
  ∧ (∀ state,
       syncTableState w uuid clusterName (Some st) = Ok (Some state) →
       after = {| read_State := Some state; read_Diagnostics := read_Diagnostics resp |}).
Proof.
  intros Hok Hprior after uuid clusterName. subst after uuid clusterName.
  unfold Read. cbn [Get]. rewrite app_nil_r, Hok.
  split; [|split; [|split]].
  - unfold syncTableState.
    destruct (dbops.GetTable w _ _) as [[t|]|e]; cbn [withMessage mbind result_bind].
    + destruct (syncPrimaryKey _ _) as [pk|e]; cbn [mbind result_bind];
        [|rewrite Hprior; done].
      destruct (syncSettings _ _) as [m|e]; cbn [mbind result_bind];
        [|rewrite Hprior; done].
      done.
    + done.
    + cbn. rewrite Hprior. done.
  - intros err ->. by rewrite Hprior.
  - intros e He. unfold syncTableState. rewrite He.
    cbn [withMessage mbind result_bind]. by rewrite Hprior.
  - by intros state ->.
Qed.

End more_resource.

Module more_resource_witnesses.
Import clickhouseclient types diag table Mock Samples Vocabulary.

Lemma Update_same_names_witness :
  let plan := tableWith [column "id" "UInt64"; column "ts" "DateTime64(3)"] false in
  let state := tableWith [column "id" "UInt64"; column "ts" "DateTime"] false in
  (Update {| upd_Plan := Some plan; upd_State := Some state |}
     {| upd_NewState := Some state; upd_Diagnostics := [] |} (conn ∅)).2
  = conn ∅.
Proof.
  intros plan state.
  rewrite (Update_same_names plan state
             {| upd_NewState := Some state; upd_Diagnostics := [] |} (conn ∅)).
  - reflexivity.
  - reflexivity.
  - intros n. reflexivity.
Defined.

Lemma Update_drops_then_adds_witness :
  let plan := tableWith [column "id" "UInt64"; column "b" "String"] true in
  let state := tableWith [column "id" "UInt64"; column "c" "Date"] true in
  dbops.executed
    (Update {| upd_Plan := Some plan; upd_State := Some state |}
       {| upd_NewState := Some state; upd_Diagnostics := [] |} (conn ∅)).2
  = ["ALTER TABLE `db`.`events` DROP COLUMN `c`";
     "ALTER TABLE `db`.`events` ADD COLUMN `b` String"].
Proof.
  intros plan state.
  pose proof (Update_drops_then_adds plan state
                {| upd_NewState := Some state; upd_Diagnostics := [] |} (conn ∅)
                eq_refl eq_refl) as Hrun.
  destruct Hrun as [Hexec _]; [discriminate..|].
  exact Hexec.
Defined.

Lemma Delete_guard_witness :
  let st := tableWith [column "id" "UInt64"] false in
  (Delete (Some st) {| del_Diagnostics := [] |} (conn ∅)).2 = conn ∅
  ∧ Delete (Some (tableWith [column "id" "UInt64"] true))
      {| del_Diagnostics := [] |} (conn ∅)
    = ({| del_Diagnostics := [] |}, conn ∅).
Proof.
  intros st. split.
  - destruct (Delete_guard st {| del_Diagnostics := [] |} (conn ∅) eq_refl)
      as [Hdenied _].
    by rewrite Hdenied.
  - destruct (Delete_guard (tableWith [column "id" "UInt64"] true)
                {| del_Diagnostics := [] |} (conn ∅) eq_refl) as [_ Habsent].
    by apply Habsent.
Defined.

Lemma Read_removes_iff_absent_witness :
  let st := tableWith [column "id" "UInt64"] false in
  let unreadable := withPrimaryKey st ListUnknown in
  read_State (Read (Some st) {| read_State := Some st; read_Diagnostics := [] |}
                (∅ : gmap string (list Row))) = None
  ∧ Read (Some unreadable) {| read_State := Some st; read_Diagnostics := [] |}
      (catalog "MergeTree" "MergeTree ORDER BY id")
    = {| read_State := Some st;
         read_Diagnostics :=
           [{| severity := SeverityError; summary := "Error syncing table";
               detail := Dump "" (New "failed to parse planned primary key") "
" |}] |}.
Proof.
  intros st unreadable. split.
  - apply (Read_removes_iff_absent st st
             {| read_State := Some st; read_Diagnostics := [] |}
             (∅ : gmap string (list Row))); reflexivity.
  - destruct (Read_removes_iff_absent unreadable st
                {| read_State := Some st; read_Diagnostics := [] |}
                (catalog "MergeTree" "MergeTree ORDER BY id") eq_refl eq_refl)
      as (_ & Hfail & _).
    apply Hfail. vm_compute. reflexivity.
Defined.

End more_resource_witnesses.

(** ** More on ModifyPlan *)
Section more_modify_plan.
Import types diag table Vocabulary.

(** When the plan has every column of the state, the loop of [ModifyPlan]
    runs to its end whatever allow_drops is, adds warnings only, and asks
    for replacement exactly when a type changed. *)
Lemma checkColumns_no_removal (plan : Table) (planColumns : gmap string Column)
    (set : gmap string bool) (cols : list Column) (ds : Diagnostics) (rr : bool) :
  Forall (λ col, is_Some (planColumns !! colName col)) cols →
  ∃ ds', checkColumns plan planColumns set cols ds rr
         = inr (ds', rr || existsb (typeChanged planColumns) cols)
         ∧ HasError ds' = HasError ds
         ∧ (existsb (typeChanged planColumns) cols = false → ds' = ds).
Proof.
  intros Hall. revert ds rr.
  induction Hall as [|col cols [planCol Hcol] _ IH]; intros ds rr.
  - exists ds. cbn. by rewrite orb_false_r.
  - cbn [checkColumns existsb]. fold (colName col).
    unfold typeChanged at 1 3. rewrite Hcol.
    destruct (negb (StringEqual (Type_ col) (Type_ planCol))).
    + edestruct IH as (ds' & Heq & Hds & _). rewrite Heq.
      exists ds'. split; [by rewrite orb_true_r|]. split; [|done].
      rewrite Hds. unfold HasError, AddWarning. rewrite existsb_app. cbn.
      by rewrite !orb_false_r.
    + edestruct IH as (ds' & Heq & Hds & Hsame). rewrite Heq.
      exists ds'. by repeat split.
Qed.

(** X11. When the plan still has every column of the state, [ModifyPlan]
    reports no error whatever allow_drops is; it marks "columns" for
    replacement exactly when the type of a column changed, and when no
    type changed (columns were only added, or only defaults and comments
    differ) it returns the response as it received it. *)
Theorem ModifyPlan_without_removal (plan state : Table) (resp : ModifyPlanResponse) :
  HasError (mp_Diagnostics resp) = false →
  is_Some (ListElementsAs (OrderBy state)) →
  (∀ n, n ∈ colName <$> Columns state → n ∈ colName <$> Columns plan) →
  let changed :=
    existsb (typeChanged (columnsByName (Columns plan))) (Columns state) in
  let resp' := ModifyPlan {| mp_Plan := Some plan; mp_State := Some state |} resp in
  HasError (mp_Diagnostics resp') = false
  ∧ RequiresReplace resp'
    = (if changed then RequiresReplace resp ++ ["columns"] else RequiresReplace resp)
  ∧ (changed = false → resp' = resp).
Proof.
  intros Hok [orderByColumns Hlist] Hkept changed resp'. subst changed resp'.
  unfold ModifyPlan. cbn [mp_Plan mp_State Get].
  unfold mpAppend. cbn [mp_Diagnostics RequiresReplace].
  rewrite !app_nil_r, Hok.
  destruct (orderBySet_spec state orderByColumns Hlist) as (set & -> & _).
  destruct (checkColumns_no_removal plan (columnsByName (Columns plan)) set
              (Columns state) (mp_Diagnostics resp) false) as (ds' & -> & Hds & Hsame).
  { apply Forall_forall. intros col Hcol.
    destruct (columnsByName (Columns plan) !! colName col) eqn:Hl; [done|].
    apply columnsByName_None in Hl. destruct Hl.
    by apply Hkept, list_elem_of_fmap_2. }
  cbn [orb mp_Diagnostics RequiresReplace]. repeat split.
  - congruence.
  - intros Hnone. rewrite Hnone, (Hsame Hnone). by destruct resp.
Qed.

End more_modify_plan.

Module more_modify_plan_witnesses.
Import types diag table Samples Vocabulary.

Lemma ModifyPlan_without_removal_witness :
  let state := tableWith [column "id" "UInt64"; column "ts" "DateTime"] false in
  let resp := {| mp_Diagnostics := []; RequiresReplace := [] |} in
  ModifyPlan
    {| mp_Plan := Some (tableWith [column "id" "UInt64"; column "ts" "DateTime";
                                   column "note" "String"] false);
       mp_State := Some state |} resp = resp
  ∧ RequiresReplace
      (ModifyPlan
         {| mp_Plan := Some (tableWith [column "id" "UInt64";
                                        column "ts" "DateTime64(3)"] false);
            mp_State := Some state |} resp) = ["columns"].
Proof.
  intros state resp. split.
  - apply (ModifyPlan_without_removal
             (tableWith [column "id" "UInt64"; column "ts" "DateTime";
                         column "note" "String"] false) state resp).
    + reflexivity.
    + by eexists.
    + intros n Hn. cbn in Hn |- *. set_solver.
    + reflexivity.
  - apply (ModifyPlan_without_removal
             (tableWith [column "id" "UInt64"; column "ts" "DateTime64(3)"] false)
             state resp).
    + reflexivity.
    + by eexists.
    + intros n Hn. exact Hn.
Defined.

End more_modify_plan_witnesses.

(** ** More on the state that is reported *)
Section more_sync.
Import clickhouseclient types table Vocabulary.
Context {W : Type} `{!ClickhouseClient W} `{!dbops.SelectBuilder}.

(** No engine family is at once a declared name and a shared name of the
    table of cloud transformations. *)
Lemma cloudTransformations_sides (original shared : string) :
  cloudTransformations !! original = Some shared →
  cloudTransformations !! shared = None.
Proof.
  revert original shared.
  change (map_Forall (λ _ shared, cloudTransformations !! shared = None)
            cloudTransformations).
  apply (bool_decide_unpack _). by vm_compute.
Qed.

Lemma existsb_pairs (planned actual : string) (m : gmap string string) :
  existsb (λ '(original, shared),
             bool_decide (planned = shared) && bool_decide (actual = original))
          (map_to_list m) = true
  ↔ m !! actual = Some planned.
Proof.
  rewrite existsb_exists. split.
  - intros ([original shared] & Hin%list_elem_of_In%elem_of_map_to_list & Heq).
    apply andb_true_iff in Heq as [->%bool_decide_eq_true ->%bool_decide_eq_true].
    done.
  - intros Hl. exists (actual, planned). split.
    + by apply list_elem_of_In, elem_of_map_to_list.
    + by rewrite !bool_decide_eq_true_2.
Qed.

Lemma isCloudEngineTransformation_iff (p a : string) :
  isCloudEngineTransformation p a = true
  ↔ cloudTransformations !! p = Some a ∨ cloudTransformations !! a = Some p.
Proof.
  unfold isCloudEngineTransformation.
  destruct (cloudTransformations !! p) as [expected|] eqn:Hp.
  - rewrite bool_decide_eq_true. split.
    + intros ->. by left.
    + intros [[= ->]|Ha]; [done|].
      apply cloudTransformations_sides in Ha. congruence.
  - rewrite existsb_pairs. split; [by right|]. by intros [?|?].
Qed.

(** X12. [isCloudEngineTransformation] holds exactly of the pairs of its
    table, read in either direction; so it does not depend on which of
    the two names is the declared one. *)
Theorem isCloudEngineTransformation_pairs (planned actual : string) :
  (isCloudEngineTransformation planned actual = true
   ↔ cloudTransformations !! planned = Some actual
     ∨ cloudTransformations !! actual = Some planned)
  ∧ isCloudEngineTransformation planned actual
    = isCloudEngineTransformation actual planned.
Proof.
  pose proof isCloudEngineTransformation_iff as Hiff.
  split; [apply Hiff|].
  destruct (isCloudEngineTransformation planned actual) eqn:H1,
    (isCloudEngineTransformation actual planned) eqn:H2; try done.
  - apply Hiff in H1. rewrite <- H2. symmetry. apply Hiff. tauto.
  - apply Hiff in H2. rewrite <- H1. apply Hiff. tauto.
Qed.

(** X13. The engine that [syncTableState] reports for a plan with a known
    engine: the declared text when the declared and the observed family
    are the same engine (equal names, or a pair of the table in either
    direction), the observed text otherwise, which is how a real change
    of engine shows. *)
Theorem syncEngine_same_family (plan : Table) (planned actual : string) :
  Engine plan = StringValue planned →
  (sameFamily (normalizeEngineName planned) (normalizeEngineName actual) →
   syncEngine (Some plan) actual = StringValue planned)
  ∧ (¬ sameFamily (normalizeEngineName planned) (normalizeEngineName actual) →
     syncEngine (Some plan) actual = StringValue actual).
Proof.
  intros Hplan. unfold syncEngine. rewrite Hplan. cbn [StringIsNull ValueString].
  pose proof isCloudEngineTransformation_iff as Hiff.
  unfold sameFamily.
  destruct (isCloudEngineTransformation _ _) eqn:Hcloud.
  - apply Hiff in Hcloud. split; [done|]. intros Hnot. destruct Hnot. tauto.
  - case_decide as Hsame.
    + split; [done|]. intros Hnot. destruct Hnot. tauto.
    + split; [|done]. intros [?|Hpair]; [done|].
      apply Hiff in Hpair. congruence.
Qed.

Lemma foldl_settings (actual : gmap string string) (kvs : list (string * string))
    (m : gmap string String) (k : string) :
  foldl (λ (settingsMap : gmap string String) (kv : string * string),
           match actual !! kv.1 with
           | Some v => <[kv.1 := StringValue v]> settingsMap
           | None => settingsMap
           end) m kvs !! k
  = if decide (k ∈ kvs.*1 ∧ is_Some (actual !! k))
    then StringValue <$> actual !! k else m !! k.
Proof.
  revert m. induction kvs as [|[k0 v0] kvs IH]; intros m.
  - cbn. rewrite decide_False; [done|]. intros [[]%elem_of_nil _].
  - cbn [foldl fst fmap list_fmap]. rewrite IH. clear IH.
    destruct (decide (k ∈ kvs.*1 ∧ is_Some (actual !! k))) as [[Hin Hk]|Hn].
    + rewrite decide_True; [done|]. split; [by right|done].
    + destruct (decide (k = k0)) as [->|Hne].
      * destruct (actual !! k0) as [v|] eqn:Hv.
        -- rewrite lookup_insert_eq, decide_True; [done|].
           split; [by left|by eexists].
        -- rewrite decide_False; [done|]. by intros [_ [??]].
      * rewrite decide_False.
        -- destruct (actual !! k0); [by rewrite lookup_insert_ne|done].
        -- intros [[?|?]%elem_of_cons ?]; [done|]. by apply Hn.
Qed.

(** The settings block on its own: the settings of the database
    restricted to the keys of the plan. *)
Lemma syncSettings_restricts (plan : Table) (planned actual : gmap string string) :
  MapElementsAs (Settings plan) = Some planned →
  ∃ reported,
    syncSettings (Some plan) actual = Ok (MapValue reported)
    ∧ ∀ k, reported !! k
           = if decide (is_Some (planned !! k)) then StringValue <$> actual !! k
             else None.
Proof.
  intros Hplanned. unfold syncSettings.
  destruct (MapIsNull (Settings plan)) eqn:Hnull.
  - exists ∅. split; [done|]. intros k. rewrite lookup_empty.
    destruct (Settings plan); try done. cbn in Hplanned. injection Hplanned as <-.
    rewrite lookup_empty. by rewrite decide_False by by intros [??].
  - rewrite Hplanned. eexists. split; [done|]. intros k.
    rewrite foldl_settings, lookup_empty.
    destruct (decide (is_Some (planned !! k))) as [[v Hv]|Hk].
    + destruct (actual !! k) as [a|] eqn:Ha.
      * rewrite decide_True; [done|]. split; [|by eexists].
        apply list_elem_of_fmap. exists (k, v). split; [done|].
        by apply elem_of_map_to_list.
      * by case_decide.
    + rewrite decide_False; [done|]. intros [Hin _]. apply Hk.
      apply list_elem_of_fmap in Hin as ([k' v'] & -> & Hin).
      apply elem_of_map_to_list in Hin. by eexists.
Qed.

(** X14. The settings in the state that [syncTableState] returns are the
    settings that [GetTable] read, restricted to the keys of the plan: a
    key has a value in the reported map exactly when the plan has the key
    and the database a value for it, and the value is the one of the
    database. *)
Theorem syncTableState_settings_restricted (w : W) (uuid : string)
    (clusterName : option string) (plan state : Table) (observed : dbops.Table)
    (planned : gmap string string) :
  dbops.GetTable w uuid clusterName = Ok (Some observed) →
  MapElementsAs (Settings plan) = Some planned →
  syncTableState w uuid clusterName (Some plan) = Ok (Some state) →
  ∃ reported,
    Settings state = MapValue reported
    ∧ ∀ k, reported !! k
           = if decide (is_Some (planned !! k))
             then StringValue <$> dbops.Settings observed !! k
             else None.
Proof.
  intros Hget Hplanned. unfold syncTableState. rewrite Hget.
  cbn [withMessage mbind result_bind].
  destruct (syncPrimaryKey _ _) as [pk|e]; cbn [mbind result_bind]; [|done].
  destruct (syncSettings_restricts plan planned (dbops.Settings observed) Hplanned)
    as (reported & -> & Hlookup).
  cbn [mbind result_bind]. intros [= <-]. by exists reported.
Qed.

(** X15. What the state of [syncTableState] says of the table itself
    comes from the catalog: uuid, database name, table name, columns,
    sorting key and comment are the ones read, whatever the plan
    declares; allow_drops is the plan's. *)
Theorem syncTableState_identity (w : W) (uuid : string) (clusterName : option string)
    (plan state : Table) :
  syncTableState w uuid clusterName (Some plan) = Ok (Some state) →
  ∃ observed,
    dbops.GetTable w uuid clusterName = Ok (Some observed)
    ∧ UUID state = StringValue (dbops.UUID observed)
    ∧ DatabaseName state = StringValue (dbops.DatabaseName observed)
    ∧ TableName state = StringValue (dbops.Name observed)
    ∧ Columns state = fromTableColumn <$> dbops.Columns observed
    ∧ OrderBy state = stringList (dbops.OrderBy observed)
    ∧ TableComment state = StringValue (dbops.Comment observed)
    ∧ ClusterName state = StringPointerValue clusterName
    ∧ AllowDrops state = AllowDrops plan.
Proof.
  unfold syncTableState.
  destruct (dbops.GetTable w uuid clusterName) as [[observed|]|e];
    cbn [withMessage mbind result_bind]; [|done..].
  destruct (syncPrimaryKey _ _) as [pk|e]; cbn [mbind result_bind]; [|done].
  destruct (syncSettings _ _) as [m|e]; cbn [mbind result_bind]; [|done].
  intros [= <-]. exists observed. by repeat split.
Qed.

End more_sync.

Module more_sync_witnesses.
Import clickhouseclient types table Mock Samples Vocabulary.

Lemma syncEngine_same_family_witness :
  syncEngine (Some (withEngine (tableWith [] false) "ReplacingMergeTree(ver)"))
    "SharedReplacingMergeTree" = StringValue "ReplacingMergeTree(ver)"
  ∧ syncEngine (Some (tableWith [] false)) "Log" = StringValue "Log".
Proof.
  split.
  - apply (syncEngine_same_family
             (withEngine (tableWith [] false) "ReplacingMergeTree(ver)")
             "ReplacingMergeTree(ver)" "SharedReplacingMergeTree" eq_refl).
    right. left. by vm_compute.
  - apply (syncEngine_same_family (tableWith [] false) "MergeTree()" "Log" eq_refl).
    intros [Hsame|[Hpair|Hpair]]; vm_compute in Hsame || vm_compute in Hpair;
      discriminate.
Defined.

Lemma syncTableState_settings_restricted_witness :
  ∃ state reported,
    syncTableState
      (catalog "MergeTree" "MergeTree ORDER BY id SETTINGS a = 7, b = 2, c = 3")
      "u-1" None (Some (withSettings (tableWith [] false) {[ "a" := "1" ]}))
    = Ok (Some state)
    ∧ Settings state = MapValue reported
    ∧ reported !! "a" = Some (StringValue "7")
    ∧ reported !! "b" = None.
Proof.
  pose (w := catalog "MergeTree" "MergeTree ORDER BY id SETTINGS a = 7, b = 2, c = 3").
  pose (plan := withSettings (tableWith [] false) {[ "a" := "1" ]}).
  destruct (dbops.GetTable w "u-1" None) as [[observed|]|e] eqn:Hget;
    [|vm_compute in Hget; discriminate..].
  destruct (syncTableState w "u-1" None (Some plan)) as [[state|]|e] eqn:Hsync;
    [|vm_compute in Hsync; discriminate..].
  destruct (syncTableState_settings_restricted w "u-1" None plan state observed
              {[ "a" := "1" ]} Hget) as (reported & Hsettings & Hlookup);
    [by vm_compute|exact Hsync|].
  exists state, reported. split; [done|]. split; [exact Hsettings|].
  rewrite !Hlookup. vm_compute in Hget. injection Hget as <-. by vm_compute.
Defined.

Lemma syncTableState_identity_witness :
  ∃ state,
    syncTableState (catalog "MergeTree" "MergeTree ORDER BY id") "u-1" None
      (Some (tableWith [] true)) = Ok (Some state)
    ∧ TableName state = StringValue "events"
    ∧ AllowDrops state = BoolValue true.
Proof.
  destruct (syncTableState (catalog "MergeTree" "MergeTree ORDER BY id") "u-1" None
              (Some (tableWith [] true))) as [[state|]|e] eqn:Hsync;
    [|vm_compute in Hsync; discriminate..].
  exists state. split; [done|].
  destruct (syncTableState_identity _ "u-1" None (tableWith [] true) state Hsync)
    as (observed & Hget & _ & _ & Hname & _ & _ & _ & _ & Hallow).
  split; [|exact Hallow].
  rewrite Hname. vm_compute in Hget. by injection Hget as <-.
Defined.

End more_sync_witnesses.

(** ** The family of an engine, and the diff once more *)
Section family_and_diff.
Import Strings types table Vocabulary.

(** X16. [normalizeEngineName] returns the family of an engine text: for
    a name without white space around it and without "(", the name itself,
    with or without a parameter list after it. *)
Theorem normalizeEngineName_family (name parameters : string) :
  trimmed name → (∀ i, ¬ occursAt name "(" i) →
  normalizeEngineName name = name
  ∧ normalizeEngineName (name +:+ "(" +:+ parameters) = name.
Proof.
  intros Htrim Hfree. unfold normalizeEngineName. split.
  - by rewrite (proj2 (Index_None name "(") Hfree).
  - rewrite Index_before_sep by done. by rewrite upto_app.
Qed.

(** X17. The diff of [Update] by names: a column is added exactly when it
    is a plan column whose name the state does not have, a name is
    removed exactly when the state has it and the plan does not, and no
    name is both removed and added, so a column is never exchanged for
    one of the same name. *)
Theorem diff_by_name (plan state : Table) :
  (∀ col, col ∈ columnsToAdd plan state
          ↔ ∃ planCol, planCol ∈ Columns plan ∧ col = toTableColumn planCol
                       ∧ colName planCol ∉ colName <$> Columns state)
  ∧ (∀ n, n ∈ columnsToRemove plan state
          ↔ n ∈ colName <$> Columns state ∧ n ∉ colName <$> Columns plan)
  ∧ (∀ col, col ∈ columnsToAdd plan state →
            querybuilder.Name col ∉ columnsToRemove plan state).
Proof.
  assert (∀ col, col ∈ columnsToAdd plan state
          ↔ ∃ planCol, planCol ∈ Columns plan ∧ col = toTableColumn planCol
                       ∧ colName planCol ∉ colName <$> Columns state) as Hadd.
  { intros col. rewrite columnsToAdd_filter, list_elem_of_fmap. split.
    - intros (planCol & -> & [Hn Hin]%list_elem_of_filter). eauto.
    - intros (planCol & Hin & -> & Hn). exists planCol. split; [done|].
      by apply list_elem_of_filter. }
  assert (∀ n, n ∈ columnsToRemove plan state
          ↔ n ∈ colName <$> Columns state ∧ n ∉ colName <$> Columns plan) as Hrem.
  { intros n. rewrite columnsToRemove_filter, list_elem_of_filter. tauto. }
  split; [done|]. split; [done|].
  intros col (planCol & Hin & -> & _)%Hadd [_ Hgone]%Hrem.
  apply Hgone.
  change (querybuilder.Name (toTableColumn planCol)) with (colName planCol).
  by apply list_elem_of_fmap_2.
Qed.

End family_and_diff.

Module family_witnesses.
Import Strings types table Vocabulary.

Lemma normalizeEngineName_family_witness :
  normalizeEngineName "ReplicatedMergeTree('/clickhouse/tables/{shard}/t', '{replica}')"
  = "ReplicatedMergeTree".
Proof.
  apply (normalizeEngineName_family "ReplicatedMergeTree"
           "'/clickhouse/tables/{shard}/t', '{replica}')").
  - reflexivity.
  - by apply Index_None.
Defined.

End family_witnesses.

(** ** Primary key, TTL and the failures of the catalog reader *)
Section keys_and_failures.
Import clickhouseclient types table Vocabulary.
Context {W : Type} `{!ClickhouseClient W} `{!dbops.SelectBuilder}.

(** X18. The primary key and the TTL of the state that [syncTableState]
    returns. The primary key is the plan's value when the plan declares
    none and the database reports one (it infers it from the sorting
    key), and the reported key otherwise. The TTL is the plan's text when
    the plan has one and the database reports any, the reported text
    when the plan has none, and null when the database reports none. *)
Theorem syncTableState_primary_key_and_ttl (w : W) (uuid : string)
    (clusterName : option string) (plan state : Table) (observed : dbops.Table)
    (planned : list string) :
  dbops.GetTable w uuid clusterName = Ok (Some observed) →
  ListElementsAs (PrimaryKey plan) = Some planned →
  syncTableState w uuid clusterName (Some plan) = Ok (Some state) →
  PrimaryKey state
  = (if decide (planned = [] ∧ dbops.PrimaryKey observed ≠ [])
     then PrimaryKey plan else stringList (dbops.PrimaryKey observed))
  ∧ TTL state
    = match dbops.TTL observed with
      | Some ttl => if StringIsNull (TTL plan) then StringValue ttl else TTL plan
      | None => StringNull
      end.
Proof.
  intros Hget Hplanned. unfold syncTableState. rewrite Hget.
  cbn [withMessage mbind result_bind].
  assert (syncPrimaryKey (Some plan) (dbops.PrimaryKey observed)
          = Ok (if decide (planned = [] ∧ dbops.PrimaryKey observed ≠ [])
                then PrimaryKey plan else stringList (dbops.PrimaryKey observed)))
    as ->.
  { unfold syncPrimaryKey.
    assert ((if ListIsNull (PrimaryKey plan) then Ok []
             else match ListElementsAs (PrimaryKey plan) with
                  | Some l => Ok l
                  | None => Err (New "failed to parse planned primary key")
                  end) = Ok planned) as ->.
    { rewrite Hplanned. destruct (PrimaryKey plan); cbn in *; congruence. }
    cbn [mbind result_bind].
    destruct planned as [|p planned], (dbops.PrimaryKey observed) as [|o pk];
      cbn [length]; repeat case_decide; try done; try lia; naive_solver lia. }
  cbn [mbind result_bind].
  destruct (syncSettings _ _) as [m|e]; cbn [mbind result_bind]; [|done].
  intros [= <-]. cbn [PrimaryKey TTL]. split; [done|].
  unfold syncTTL. by destruct (dbops.TTL observed).
Qed.

Lemma tableRow_missing (uuid field : string) (data : Row) (table : option dbops.Table) :
  field ∈ ["database"; "name"; "engine"; "partition_key"; "sorting_key";
           "primary_key"; "sampling_key"; "engine_full"; "comment"] →
  data !! field = None →
  ∃ e, dbops.tableRow uuid data table = (Some e, table).
Proof.
  intros Hfield Hmissing. unfold dbops.tableRow, GetString.
  assert (∀ f (k : string → result dbops.Table),
    (field = f ∨
     ∀ v, ∃ e, match k v with Ok t => (None, Some t) | Err e => (Some e, table) end
               = (Some e, table)) →
    ∀ msg, ∃ e,
      match withMessage match data !! f with
                        | Some v => Ok v
                        | None => Err (New ("missing field " +:+ f))
                        end msg ≫= k with
      | Ok t => (None, Some t)
      | Err e => (Some e, table)
      end = (Some e, table)) as Hstep.
  { intros f k [->|Hk] msg.
    - rewrite Hmissing. cbn. eauto.
    - destruct (data !! f) as [v|]; cbn; [apply Hk|eauto]. }
  repeat (apply elem_of_cons in Hfield as [Hfield|Hfield];
          [apply Hstep; by left|apply Hstep; right; intros ?]).
  by apply elem_of_nil in Hfield.
Qed.

Lemma forRows_fails {S : Type} (callback : Row → S → option error * S)
    (rows : list Row) (data : Row) (st : S) :
  data ∈ rows →
  (∀ s, ∃ e, callback data s = (Some e, s)) →
  ∃ e s, forRows callback rows st = (Some e, s).
Proof.
  intros Hin Hfail. revert st.
  induction rows as [|row rows IH]; intros st; [by apply elem_of_nil in Hin|].
  cbn [forRows]. destruct (callback row st) as [[e|] s] eqn:Hrow; [eauto|].
  apply elem_of_cons in Hin as [->|Hin]; [|by apply IH].
  destruct (Hfail st) as [e He]. congruence.
Qed.

(** X19. [GetTable] fails, and returns no table, when the descriptor
    query fails or when one of its rows lacks one of the nine fields,
    also when other rows are complete. *)
Theorem GetTable_fails_on_bad_rows (w : W) (uuid : string) (clusterName : option string)
    (sql : string) :
  dbops.SelectBuild
    ["database"; "name"; "engine"; "partition_key"; "sorting_key";
     "primary_key"; "sampling_key"; "engine_full"; "comment"]
    "system.tables" clusterName [("uuid", uuid)] = Ok sql →
  (∀ e, Query w sql = Err e →
        dbops.GetTable w uuid clusterName = Err (WithMessage e "error running query"))
  ∧ (∀ rows data field,
       Query w sql = Ok rows → data ∈ rows →
       field ∈ ["database"; "name"; "engine"; "partition_key"; "sorting_key";
                "primary_key"; "sampling_key"; "engine_full"; "comment"] →
       data !! field = None →
       ∃ e, dbops.GetTable w uuid clusterName
            = Err (WithMessage e "error running query")).
Proof.
  intros Hsql. unfold dbops.GetTable. rewrite Hsql. split.
  - intros e Hq. unfold Select. by rewrite Hq.
  - intros rows data field Hq Hin Hfield Hmissing. unfold Select. rewrite Hq.
    destruct (forRows_fails (dbops.tableRow uuid) rows data None Hin) as (e & s & ->).
    + intros s. by apply (tableRow_missing uuid field).
    + eauto.
Qed.

(** X20. [AddTableColumns] and [DropTableColumns] execute nothing and
    return the error of the builder when the database name or the table
    name is empty or the list of columns is empty. *)
Theorem alter_operations_refuse (c : dbops.Conn W) (databaseName tableName : string)
    (columns : list querybuilder.TableColumn) (columnNames : list string)
    (clusterName : option string) :
  (databaseName = "" ∨ tableName = "" ∨ columns = [] →
   ∃ e, dbops.AddTableColumns c databaseName tableName columns clusterName
        = (Some (WithMessage e "error building ALTER TABLE ADD COLUMN query"), c))
  ∧ (databaseName = "" ∨ tableName = "" ∨ columnNames = [] →
     ∃ e, dbops.DropTableColumns c databaseName tableName columnNames clusterName
          = (Some (WithMessage e "error building ALTER TABLE DROP COLUMN query"), c)).
Proof.
  split; intros Hempty.
  - unfold dbops.AddTableColumns, querybuilder.AddBuild.
    cbn [querybuilder.add_databaseName querybuilder.add_tableName
         querybuilder.add_columns querybuilder.AddWithCluster
         querybuilder.NewAlterTableAddColumn].
    destruct (decide (databaseName = "")); [eauto|].
    destruct (decide (tableName = "")); [eauto|].
    destruct (decide (length columns = 0)) as [|Hlen]; [eauto|].
    destruct Hempty as [?|[?| ->]]; done.
  - unfold dbops.DropTableColumns, querybuilder.DropColBuild.
    cbn [querybuilder.dropcol_databaseName querybuilder.dropcol_tableName
         querybuilder.dropcol_columnNames querybuilder.DropColWithCluster
         querybuilder.NewAlterTableDropColumn].
    destruct (decide (databaseName = "")); [eauto|].
    destruct (decide (tableName = "")); [eauto|].
    destruct (decide (length columnNames = 0)) as [|Hlen]; [eauto|].
    destruct Hempty as [?|[?| ->]]; done.
Qed.

End keys_and_failures.

Module keys_and_failures_witnesses.
Import clickhouseclient types table Mock Samples Vocabulary.

Lemma syncTableState_primary_key_and_ttl_witness :
  ∃ state,
    syncTableState (catalog "MergeTree" "MergeTree ORDER BY id TTL ts + toIntervalDay(1)")
      "u-1" None (Some (tableWith [] true)) = Ok (Some state)
    ∧ PrimaryKey state = stringList []
    ∧ TTL state = StringValue "ts + toIntervalDay(1)".
Proof.
  pose (w := catalog "MergeTree" "MergeTree ORDER BY id TTL ts + toIntervalDay(1)").
  destruct (dbops.GetTable w "u-1" None) as [[observed|]|e] eqn:Hget;
    [|vm_compute in Hget; discriminate..].
  destruct (syncTableState w "u-1" None (Some (tableWith [] true)))
    as [[state|]|e] eqn:Hsync; [|vm_compute in Hsync; discriminate..].
  exists state. split; [done|].
  destruct (syncTableState_primary_key_and_ttl w "u-1" None (tableWith [] true)
              state observed [] Hget eq_refl Hsync) as [-> ->].
  vm_compute in Hget. injection Hget as <-. by vm_compute.
Defined.

Lemma GetTable_fails_on_bad_rows_witness :
  ∃ e, dbops.GetTable
         ({[ tablesSql "u-1" := [({[ "database" := "db" ]} : Row)] ]}
            : gmap string (list Row))
         "u-1" None = Err (WithMessage e "error running query").
Proof.
  destruct (GetTable_fails_on_bad_rows
              ({[ tablesSql "u-1" := [({[ "database" := "db" ]} : Row)] ]}
                 : gmap string (list Row))
              "u-1" None (tablesSql "u-1")) as [_ Hrows]; [reflexivity|].
  apply (Hrows [({[ "database" := "db" ]} : Row)] {[ "database" := "db" ]} "engine").
  - vm_compute. reflexivity.
  - apply list_elem_of_here.
  - apply list_elem_of_further, list_elem_of_further, list_elem_of_here.
  - reflexivity.
Defined.

Lemma alter_operations_refuse_witness :
  ∃ e, dbops.DropTableColumns (conn ∅) "db" "events" [] None
       = (Some (WithMessage e "error building ALTER TABLE DROP COLUMN query"), conn ∅).
Proof.
  apply (alter_operations_refuse (conn ∅) "db" "events" [] [] None).
  by right; right.
Defined.

End keys_and_failures_witnesses.
